(** * Family booking portal: booking intervals and monthly usage

    A shallow embedding of the usage endpoint ([GET] of [/api/usage], with
    its helpers [getPreviousMonthWindow] and [countOverlapDays]) and of the
    validation done by [confirmCreateBooking] on the calendar page.

    Conventions of the embedding.
    - A calendar date "YYYY-MM-DD" (a [date] column of the store, a
      FullCalendar [startStr]) is its day number: the count of days since
      1970-01-01 in the proleptic Gregorian calendar ([isoDate]).
    - A JavaScript [Date] object is its time value, in milliseconds since
      the epoch ([getTime]).  Only valid dates are represented.
    - The host's time zone is a function [utcOffset] giving, for a day
      number, the offset of local time from UTC (in milliseconds, east
      positive) with which local midnight of that day is read.  Most
      results need the zone to be [steady]: the offsets of any two days
      differ by less than half a day, as they do across daylight-saving
      shifts; a move across the date line ([apia], [kwajalein]) is not
      steady, and the results that fail there are shown to fail.
    - Where a Date is read back in local time ([formatDate]) a second
      function [offsetAt] gives the offset in force at an instant.
    - [Math.round (ms / 86400000)] is taken on the exact quotient; the
      operands are integers far below 2^53.
    - [toISOString().slice(0, 10)] is the UTC day of a time value (years
      0000 to 9999, where the string starts with the date).
    - [usageRate] is the exact rational; the source holds the nearest
      double.

    Beyond the usage endpoint and booking creation the development covers
    the calendar page's [pickColorForUser] and [cancelBooking], the login
    page's [sendLink], the notification route's [formatDate] and
    [escapeHtml], and the route that deletes a booking for an admin.
    Strings are sequences of one-byte code units (ids, dates and the
    characters HTML escaping looks for are ASCII); the effect of a handler on
    the store is the table it returns. *)

From Stdlib Require Import ZArith QArith Lia Permutation.
From stdpp Require Import gmap strings list fin_maps pretty.
From Stdlib Require Import Ascii.

Local Open Scope Z_scope.

(** ** Calendar arithmetic *)

Abbreviation ISODate := Z (only parsing).
Abbreviation Date := Z (only parsing).

Definition msPerDay : Z := 1000 * 60 * 60 * 24.

(** [Math.round (ms / (1000 * 60 * 60 * 24))]: the nearest integer, halves
    going up. *)
Definition roundDays (ms : Z) : Z := (2 * ms + msPerDay) / (2 * msPerDay).

(** Day number of the civil date [y]-[m]-[d], [m] counted from 1. *)
Definition daysFromCivil (y m d : Z) : Z :=
  let y' := if m <=? 2 then y - 1 else y in
  let era := y' / 400 in
  let yoe := y' - era * 400 in
  let mp := if m >? 2 then m - 3 else m + 9 in
  let doy := (153 * mp + 2) / 5 + d - 1 in
  let doe := yoe * 365 + yoe / 4 - yoe / 100 + doy in
  era * 146097 + doe - 719468.

(** The date written "YYYY-MM-DD". *)
Definition isoDate (y m d : Z) : ISODate := daysFromCivil y m d.

Definition isLeapYear (y : Z) : bool :=
  ((y mod 4 =? 0) && negb (y mod 100 =? 0)) || (y mod 400 =? 0).

(** Length of month [m] (counted from 1) of year [y]. *)
Definition daysInMonth (y m : Z) : Z :=
  if m =? 2 then (if isLeapYear y then 29 else 28)
  else if (m =? 4) || (m =? 6) || (m =? 9) || (m =? 11) then 30
  else 31.

(** [MakeDay] of the language standard for the day-of-month 1 plus [d - 1]:
    a month index outside 0..11 carries into the year. *)
Definition makeDay (year monthIndex d : Z) : Z :=
  daysFromCivil (year + monthIndex / 12) (monthIndex mod 12 + 1) 1 + (d - 1).

(** [toISOString().slice(0, 10)]: the UTC calendar date of a time value. *)
Definition toISODate (t : Date) : ISODate := t / msPerDay.

(** [String(n).padStart(2, "0")]. *)
Definition padStart2 (s : string) : string :=
  match String.length s with
  | O => "00"
  | S O => "0" +:+ s
  | _ => s
  end.

(** ** Data model *)

Record House := { id : Z; name : string }.

Inductive Status := active | cancelled.

Definition is_active (s : Status) : bool :=
  match s with active => true | cancelled => false end.

(** A row of [bookings], with the columns the usage endpoint selects. *)
Record Booking := {
  house_id : Z;
  start_date : ISODate;
  end_date : ISODate; (* exclusive *)
  status : Status
}.

Record UsageRow := {
  houseId : Z;
  houseName : string;
  month : string;
  daysWithBookings : Z;
  rowTotalDays : Z;
  usageRate : Q
}.

(** What [getFullYear] and [getMonth] (0-11) give on [new Date()]. *)
Record Clock := { getFullYear : Z; getMonth : Z }.

Record MonthWindow := {
  monthStart : Date;
  monthEnd : Date; (* exclusive *)
  totalDays : Z;
  label : string
}.

(** The [{ data, error }] pair a query resolves to. *)
Record QueryResult (A : Type) := {
  data : option (list A);
  error : option string
}.
Arguments data {A} _.
Arguments error {A} _.

(** The store as the endpoint sees it: the rows of the two tables, in the
    order a [select] returns them, and the failure either query may meet. *)
Record Supabase := {
  houses : list House;
  bookings : list Booking;
  housesFault : option string;
  bookingsFault : option string
}.

Definition select {A : Type} (fault : option string) (rows : list A)
    : QueryResult A :=
  match fault with
  | Some message => {| data := None; error := Some message |}
  | None => {| data := Some rows; error := None |}
  end.

Inductive Response :=
| Json200 (month : string) (totalDays : Z) (rows : list UsageRow)
| Json500 (error : string).


(** The filters of the bookings query:
    [.eq("status", "active").lt("start_date", monthEndStr).gt("end_date", monthStartStr)]. *)
Definition touching (monthStartStr monthEndStr : ISODate) (row : Booking) : bool :=
  is_active (status row)
  && (start_date row <? monthEndStr)   (* start < monthEnd *)
  && (end_date row >? monthStartStr).  (* end   > monthStart *)

(** 4) Build response rows for each house (even if 0 usage). *)
Definition buildRows (label : string) (totalDays : Z)
    (usageByHouse : gmap Z Z) (houses : list House) : list UsageRow :=
  List.map
    (fun h =>
       let daysWithBookings := default 0 (usageByHouse !! id h) in
       let usageRate :=
         if totalDays >? 0
         then (inject_Z daysWithBookings / inject_Z totalDays)%Q
         else 0%Q in
       {| houseId := id h;
          houseName := name h;
          month := label;
          daysWithBookings := daysWithBookings;
          rowTotalDays := totalDays;
          usageRate := usageRate |})
    houses.

(** The calendar page's state read by [confirmCreateBooking]. *)
Record CalendarPage := {
  selectedHouseId : option Z;
  pendingStart : option ISODate;
  pendingEnd : option ISODate;
  guestCountInput : string;
  noteInput : string;
  saving : bool
}.

Record User := { user_id : string; email : option string }.

(** The object handed to [insert] on [bookings]. *)
Record BookingInsert := {
  ins_house_id : Z;
  ins_created_by : string;
  ins_guest_count : Q;
  ins_start_date : ISODate;
  ins_end_date : ISODate;
  ins_status : Status;
  ins_note : option string
}.

(** How a run of [confirmCreateBooking] ends, up to the insert. *)
Inductive Outcome :=
| Skipped                      (* plain [return]: nothing shown, nothing sent *)
| ToLogin                      (* [window.location.href = "/login"] *)
| Rejected (modalError : string)
| Insert (row : BookingInsert).

Section LocalTime.

Variable utcOffset : Z -> Z.

(** [new Date(`${s}T00:00:00`)]: midnight, local time, of the day [d]. *)
Definition localMidnight (d : ISODate) : Date := d * msPerDay - utcOffset d.

(** [new Date(year, monthIndex, day)]: local midnight; a year in 0..99
    stands for 1900 + year. *)
Definition newDate (year monthIndex day : Z) : Date :=
  let yr := if (0 <=? year) && (year <=? 99) then 1900 + year else year in
  localMidnight (makeDay yr monthIndex day).

(** Helper: clamp a booking range [start, end) to [winStart, winEnd) and
    count days of overlap. *)
Definition countOverlapDays
    (bookingStartStr bookingEndStr : ISODate) (winStart winEnd : Date) : Z :=
  let bs := localMidnight bookingStartStr in
  let be := localMidnight bookingEndStr in
  let start := if bs <? winStart then winStart else bs in
  let end_ := if be >? winEnd then winEnd else be in
  let ms := end_ - start in
  if ms <=? 0 then 0 else roundDays ms.

(** *** The usage endpoint *)

(** Helper: get previous full month (e.g. if today is Feb 5, returns
    Jan 1 - Feb 1). *)
Definition getPreviousMonthWindow (now : Clock) : MonthWindow :=
  let prevMonth := getMonth now - 1 in
  let year := if prevMonth <? 0 then getFullYear now - 1 else getFullYear now in
  let monthIndex := Z.rem (prevMonth + 12) 12 in
  let monthStart := newDate year monthIndex 1 in
  let monthEnd := newDate year (monthIndex + 1) 1 in
  let totalDays := roundDays (monthEnd - monthStart) in
  let label := pretty year +:+ "-" +:+ padStart2 (pretty (monthIndex + 1)) in
  {| monthStart := monthStart; monthEnd := monthEnd;
     totalDays := totalDays; label := label |}.

(** The body of the [forEach] over the booking rows. *)
Definition accumulate (monthStart monthEnd : Date)
    (usageByHouse : gmap Z Z) (row : Booking) : gmap Z Z :=
  let days :=
    countOverlapDays (start_date row) (end_date row) monthStart monthEnd in
  if days <=? 0 then usageByHouse
  else
    let current := default 0 (usageByHouse !! house_id row) in
    <[house_id row := current + days]> usageByHouse.

(** 3) Aggregate usage by house. *)
Definition aggregateUsage (monthStart monthEnd : Date)
    (bookingRows : list Booking) : gmap Z Z :=
  fold_left (accumulate monthStart monthEnd) bookingRows ∅.

(** 2) Get all active bookings that touch that month. *)
Definition selectBookings (db : Supabase) (monthStartStr monthEndStr : ISODate)
    : QueryResult Booking :=
  select (bookingsFault db)
    (List.filter (touching monthStartStr monthEndStr) (bookings db)).

Definition GET (now : Clock) (db : Supabase) : Response :=
  let w := getPreviousMonthWindow now in
  let q1 := select (housesFault db) (houses db) in
  match error q1 with
  | Some message => Json500 message
  | None =>
      let houses := default [] (data q1) in
      let monthStartStr := toISODate (monthStart w) in
      let monthEndStr := toISODate (monthEnd w) in
      let q2 := selectBookings db monthStartStr monthEndStr in
      match error q2 with
      | Some message => Json500 message
      | None =>
          let usageByHouse :=
            aggregateUsage (monthStart w) (monthEnd w) (default [] (data q2)) in
          Json200 (label w) (totalDays w)
            (buildRows (label w) (totalDays w) usageByHouse houses)
      end
  end.


(** *** Booking creation on the calendar page *)

Variable Number_ : string -> option Q.
Variable trim : string -> string.

Definition confirmCreateBooking (page : CalendarPage) (user : option User)
    : Outcome :=
  match selectedHouseId page, pendingStart page, pendingEnd page with
  | Some houseId, Some pStart, Some pEnd =>
      if houseId =? 0 then Skipped
      else if saving page then Skipped
      else
        match user with
        | None => ToLogin
        | Some u =>
            match Number_ (guestCountInput page) with
            | None => Rejected "Guest count must be a number ≥ 1."
            | Some guestCount =>
                if Qlt_le_dec guestCount 1
                then Rejected "Guest count must be a number ≥ 1."
                else
                  let start := localMidnight pStart in
                  let end_ := localMidnight pEnd in
                  let nights := roundDays (end_ - start) in
                  if nights <=? 0 then Rejected "Invalid date range."
                  else if nights >? 7 then Rejected "Max stay is 7 nights."
                  else
                    let note :=
                      if String.eqb (trim (noteInput page)) ""
                      then None else Some (trim (noteInput page)) in
                    Insert
                      {| ins_house_id := houseId;
                         ins_created_by := user_id u;
                         ins_guest_count := guestCount;
                         ins_start_date := pStart;
                         ins_end_date := pEnd;
                         ins_status := active;
                         ins_note := note |}
            end
        end
  | _, _, _ => Skipped
  end.

End LocalTime.

(** The offsets in force at any two local midnights differ by less than
    half a day (daylight-saving shifts are an hour). *)
Definition steady (utcOffset : Z -> Z) : Prop :=
  forall d1 d2, 2 * Z.abs (utcOffset d1 - utcOffset d2) < msPerDay.


(** ** Notions the properties are stated with *)

(** The overlap of two day ranges, as the specification writes it. *)
Definition overlapDays (start_date end_date windowStart windowEnd : Z) : Z :=
  Z.max 0 (Z.min end_date windowEnd - Z.max start_date windowStart).

(** The store when both queries succeed. *)
Definition store (hs : list House) (bs : list Booking) : Supabase :=
  {| houses := hs; bookings := bs; housesFault := None; bookingsFault := None |}.

Definition rowsOf (res : Response) : list UsageRow :=
  match res with
  | Json200 _ _ rows => rows
  | Json500 _ => []
  end.

(** The rows the bookings query returns for the window of [now]. *)
Definition bookingRows (tz : Z -> Z) (now : Clock) (bs : list Booking)
    : list Booking :=
  let w := getPreviousMonthWindow tz now in
  List.filter (touching (toISODate (monthStart w)) (toISODate (monthEnd w))) bs.

(** Days one row adds to its house. *)
Definition daysOf (tz : Z -> Z) (winStart winEnd : Date) (row : Booking) : Z :=
  countOverlapDays tz (start_date row) (end_date row) winStart winEnd.

Fixpoint sumZ (l : list Z) : Z :=
  match l with
  | [] => 0
  | x :: l' => x + sumZ l'
  end.

(** Sum of the days of the rows of house [k]. *)
Definition houseDays (tz : Z -> Z) (winStart winEnd : Date) (k : Z)
    (rows : list Booking) : Z :=
  sumZ (List.map (daysOf tz winStart winEnd)
          (List.filter (fun row => house_id row =? k) rows)).

(** A reading of the host clock: a month index in 0..11 and a year not
    before the epoch. *)
Definition wallClock (now : Clock) : Prop :=
  0 <= getMonth now <= 11 /\ 1970 <= getFullYear now.

(** Year and month (counted from 1) of the month before that of [now]. *)
Definition lastCompletedMonth (now : Clock) : Z * Z :=
  if getMonth now =? 0 then (getFullYear now - 1, 12)
  else (getFullYear now, getMonth now).

(** Time zones used in the examples: UTC, a fixed zone one hour east of
    it, and a zone five hours west that moves one hour east for the later
    part of each year. *)
Definition utc : Z -> Z := fun _ => 0.
Definition utcPlus1 : Z -> Z := fun _ => 3600000.
Definition seasonal : Z -> Z :=
  fun d => if d mod 365 <? 180 then -18000000 else -14400000.

(** Zones that moved across the date line.  [apia] is Pacific/Apia at the
    end of 2011: ten hours behind UTC up to 2011-12-29 and fourteen hours
    ahead of it from 2011-12-31; the day 2011-12-30 was skipped there, and
    its midnight is read with the offset before the move.  [kwajalein]
    repeats a day instead: eleven hours ahead of UTC before 1969-10-01,
    twelve hours behind from then on. *)
Definition apia : Z -> Z :=
  fun d => if d <=? isoDate 2011 12 30 then -36000000 else 50400000.
Definition kwajalein : Z -> Z :=
  fun d => if d <? isoDate 1969 10 1 then 39600000 else -43200000.

(** The clock of a host in January 2012. *)
Definition january2012 : Clock := {| getFullYear := 2012; getMonth := 0 |}.

(** The scenario of the specification: January 2026 seen from February. *)
Definition february2026 : Clock := {| getFullYear := 2026; getMonth := 1 |}.

Definition scenarioHouses : list House :=
  [ {| id := 1; name := "156 Bay Ave" |};
    {| id := 2; name := "112 Bear Ln" |};
    {| id := 3; name := "155 Bay Ave" |} ].

Definition scenarioBookings : list Booking :=
  [ {| house_id := 1; start_date := isoDate 2026 1 10;
       end_date := isoDate 2026 1 15; status := active |};
    {| house_id := 1; start_date := isoDate 2026 1 14;
       end_date := isoDate 2026 1 20; status := active |};
    {| house_id := 2; start_date := isoDate 2025 12 28;
       end_date := isoDate 2026 1 3; status := active |};
    {| house_id := 1; start_date := isoDate 2026 1 22;
       end_date := isoDate 2026 1 25; status := cancelled |} ].

(** Five stays of seven nights in one house, all within January 2026. *)
Definition crowdedBookings : list Booking :=
  List.map
    (fun d => {| house_id := 1; start_date := isoDate 2026 1 d;
                 end_date := isoDate 2026 1 (d + 7); status := active |})
    [1; 5; 8; 10; 12].

(** A booking for a house that is not in the houses table. *)
Definition strayBooking : Booking :=
  {| house_id := 9; start_date := isoDate 2026 1 5;
     end_date := isoDate 2026 1 8; status := active |}.

(** A stay that begins on the last day of January 2026. *)
Definition lastDayBooking : Booking :=
  {| house_id := 3; start_date := isoDate 2026 1 31;
     end_date := isoDate 2026 2 2; status := active |}.

(** The date test of the specification: the range meets the window. *)
Definition intersects (windowStart windowEnd : ISODate) (b : Booking) : bool :=
  (start_date b <? windowEnd) && (end_date b >? windowStart).

(** Sum of the overlap days of the active bookings of house [k] whose range
    meets the window of days [windowStart, windowEnd). *)
Definition expectedDays (windowStart windowEnd : ISODate) (k : Z)
    (bs : list Booking) : Z :=
  sumZ (List.map
          (fun b => overlapDays (start_date b) (end_date b) windowStart windowEnd)
          (List.filter
             (fun b => (house_id b =? k) && is_active (status b)
                       && intersects windowStart windowEnd b)
             bs)).

(** A request for ten nights by a signed-in user. *)
Definition tenNights : CalendarPage :=
  {| selectedHouseId := Some 1;
     pendingStart := Some (isoDate 2026 1 10);
     pendingEnd := Some (isoDate 2026 1 20);
     guestCountInput := "2";
     noteInput := "";
     saving := false |}.

(** A request from 2011-12-26 to 2012-01-03 by a signed-in user. *)
Definition overNewYear2012 : CalendarPage :=
  {| selectedHouseId := Some 1;
     pendingStart := Some (isoDate 2011 12 26);
     pendingEnd := Some (isoDate 2012 1 3);
     guestCountInput := "2";
     noteInput := "";
     saving := false |}.

Definition someUser : User :=
  {| user_id := "7f3c"; email := None |}.

(** A reading of [Number] that knows the modal's default guest count. *)
Definition numberOfDefault (s : string) : option Q :=
  if String.eqb s "2" then Some 2%Q else None.

(** The active bookings of house [k] that add at least one day. *)
Definition contributing (tz : Z -> Z) (w : MonthWindow) (k : Z)
    (bs : list Booking) : list Booking :=
  List.filter
    (fun b => (house_id b =? k) && is_active (status b)
              && (0 <? daysOf tz (monthStart w) (monthEnd w) b))
    bs.

(** Days from 0000-03-01 to March 1 of year [y]. *)
Definition yearStart (y : Z) : Z :=
  y / 400 * 146097
  + ((y - y / 400 * 400) * 365 + (y - y / 400 * 400) / 4 - (y - y / 400 * 400) / 100).

(** ** Further notions: months in sequence and stored bookings *)

(** The clock one calendar month later. *)
Definition nextMonth (now : Clock) : Clock :=
  if getMonth now =? 11
  then {| getFullYear := getFullYear now + 1; getMonth := 0 |}
  else {| getFullYear := getFullYear now; getMonth := getMonth now + 1 |}.


(** A request for five nights in house 1 and the row it yields. *)
Definition fiveNights : CalendarPage :=
  {| selectedHouseId := Some 1;
     pendingStart := Some (isoDate 2026 1 10);
     pendingEnd := Some (isoDate 2026 1 15);
     guestCountInput := "2";
     noteInput := "";
     saving := false |}.

Definition fiveNightsRow : BookingInsert :=
  {| ins_house_id := 1; ins_created_by := "7f3c"; ins_guest_count := 2%Q;
     ins_start_date := isoDate 2026 1 10; ins_end_date := isoDate 2026 1 15;
     ins_status := active; ins_note := None |}.

(** ** The other pages and routes *)

(** *** Dates shown to people (the notification route's [formatDate]) *)

(** Year, month (counted from 1) and day of the month of a day number. *)
Definition civilFromDays (z0 : Z) : Z * Z * Z :=
  let z := z0 + 719468 in
  let era := z / 146097 in
  let doe := z - era * 146097 in
  let yoe := (doe - doe / 1460 + doe / 36524 - doe / 146096) / 365 in
  let y := yoe + era * 400 in
  let doy := doe - (365 * yoe + yoe / 4 - yoe / 100) in
  let mp := (5 * doy + 2) / 153 in
  let d := doy - (153 * mp + 2) / 5 + 1 in
  let m := if mp <? 10 then mp + 3 else mp - 9 in
  (if m <=? 2 then y + 1 else y, m, d).

(** The local calendar day of a time value, from which [getFullYear],
    [getMonth] and [getDate] read their fields: [offsetAt t] is the offset
    of local time from UTC in force at the instant [t]. *)
Definition localDay (offsetAt : Z -> Z) (t : Date) : Z :=
  (t + offsetAt t) / msPerDay.

(** [new Date (dateStr + "T00:00:00")] is local midnight of the day, read
    with [utcOffset]; the three getters then read the local day of that
    instant. *)
Definition formatDate (utcOffset offsetAt : Z -> Z) (dateStr : ISODate)
    : string :=
  let d := localMidnight utcOffset dateStr in
  let '(yyyy, month1, date) := civilFromDays (localDay offsetAt d) in
  let mm := padStart2 (pretty month1) in
  let dd := padStart2 (pretty date) in
  mm +:+ "/" +:+ dd +:+ "/" +:+ pretty yyyy.

(** The instant read for midnight of day [d] lies on day [d] in local
    time: the offset in force at it is the one it was read with, or is
    ahead of that by less than a day. *)
Definition midnightOnItsDay (utcOffset offsetAt : Z -> Z) (d : ISODate) : Prop :=
  0 <= offsetAt (localMidnight utcOffset d) - utcOffset d < msPerDay.

(** A zone without changes: the same offset at every instant. *)
Definition fixedAt (offset : Z) : Z -> Z := fun _ => offset.

(** The offset in force in Pacific/Apia at an instant: the move came at
    2011-12-30T10:00:00Z, the end of 2011-12-29 there. *)
Definition apiaAt : Z -> Z :=
  fun t => if t <? isoDate 2011 12 30 * msPerDay + 36000000
           then -36000000 else 50400000.

(** The two decimal digits [c1 c2] read as a number. *)
Definition twoDigits (c1 c2 : ascii) : Z :=
  10 * (Z.of_N (N_of_ascii c1) - 48) + (Z.of_N (N_of_ascii c2) - 48).

(** [a], padded, is written with exactly two digits that read back as
    [a]. *)
Definition paddedToTwoDigits (a : Z) : bool :=
  match padStart2 (pretty a) with
  | String c1 (String c2 EmptyString) => twoDigits c1 c2 =? a
  | _ => false
  end.

(** A date of the calendar. *)
Definition validDate (y m d : Z) : Prop :=
  1 <= m <= 12 /\ 1 <= d <= daysInMonth y m.

(** *** HTML escaping (the notification route's [escapeHtml]) *)

(** [s.replace(/c/g, r)] for a one-character pattern. *)
Fixpoint replaceAll (c : ascii) (r s : string) : string :=
  match s with
  | EmptyString => EmptyString
  | String a s' =>
      if Ascii.eqb a c then r +:+ replaceAll c r s'
      else String a (replaceAll c r s')
  end.

Definition escapeHtml (input : string) : string :=
  replaceAll "'" "&#039;"
    (replaceAll "034" "&quot;"
       (replaceAll ">" "&gt;"
          (replaceAll "<" "&lt;"
             (replaceAll "&" "&amp;" input)))).

(** The entity one character stands for, and a whole string escaped one
    character at a time. *)
Definition escapeChar (a : ascii) : string :=
  if Ascii.eqb a "&" then "&amp;"
  else if Ascii.eqb a "<" then "&lt;"
  else if Ascii.eqb a ">" then "&gt;"
  else if Ascii.eqb a "034" then "&quot;"
  else if Ascii.eqb a "'" then "&#039;"
  else String a EmptyString.

Fixpoint escapeEach (s : string) : string :=
  match s with
  | EmptyString => EmptyString
  | String a s' => escapeChar a +:+ escapeEach s'
  end.

(** Whether the character [c] occurs in [s]. *)
Fixpoint occurs (c : ascii) (s : string) : bool :=
  match s with
  | EmptyString => false
  | String a s' => Ascii.eqb a c || occurs c s'
  end.

(** *** Colours of users (the calendar page's [pickColorForUser]) *)

Definition USER_COLORS : list string :=
  [ "#064789"; "#427aa1"; "#1e40af"; "#0f766e"; "#047857";
    "#679436"; "#4d7c0f"; "#a5be00"; "#15803d"; "#166534";
    "#7c3aed"; "#6d28d9"; "#9333ea"; "#a855f7"; "#be185d";
    "#db2777"; "#9f1239"; "#b91c1c"; "#dc2626"; "#ea580c";
    "#c2410c"; "#d97706"; "#f59e0b"; "#334155"; "#475569";
    "#1f2937"; "#0f172a"; "#3f3f46"; "#525252"; "#6b7280" ].

(** [ToInt32]: the operand of a shift, and its result, as a signed 32-bit
    integer. *)
Definition toInt32 (x : Z) : Z :=
  (x + 2147483648) mod 4294967296 - 2147483648.

(** [hash << 5]. *)
Definition shiftLeft5 (hash : Z) : Z := toInt32 (toInt32 hash * 32).

(** [userId.charCodeAt(i)]; the ids are ASCII, one code unit per
    character. *)
Definition charCode (a : ascii) : Z := Z.of_nat (nat_of_ascii a).

(** The loop of [pickColorForUser] from a given [hash] on: the subtraction
    and the sum are on numbers, not on 32-bit integers. *)
Fixpoint hashFrom (hash : Z) (userId : string) : Z :=
  match userId with
  | EmptyString => hash
  | String a rest => hashFrom (charCode a + (shiftLeft5 hash - hash)) rest
  end.

Definition hashOf (userId : string) : Z := hashFrom 0 userId.

(** [USER_COLORS[Math.abs(hash) % USER_COLORS.length]]; [None] stands for
    [undefined]. *)
Definition pickColorForUser (userId : string) : option string :=
  USER_COLORS
    !! Z.to_nat (Z.rem (Z.abs (hashOf userId)) (Z.of_nat (length USER_COLORS))).

(** *** The bookings table with all its columns *)

Record BookingRow := {
  row_id : Z;
  row_house_id : Z;
  row_created_by : string;
  row_guest_count : Q;
  row_start_date : ISODate;
  row_end_date : ISODate;
  row_status : Status;
  row_note : option string;
  row_cancelled_at : option Z
}.

(** [select("house_id,start_date,end_date,status")]. *)
Definition usageColumns (row : BookingRow) : Booking :=
  {| house_id := row_house_id row;
     start_date := row_start_date row;
     end_date := row_end_date row;
     status := row_status row |}.

Record Profile := {
  profile_id : string;
  profile_name : option string;
  profile_email : option string;
  profile_color : option string;
  is_admin : option bool
}.

Inductive Toast :=
| ToastError (message : string)
| ToastSuccess (message : string).

(** [.maybeSingle()]: no row is [null], one row is that row, several rows
    are an error of the client library. *)
Definition maybeSingle {A : Type} (severalRows : string)
    (fault : option string) (rows : list A) : option A * option string :=
  match fault with
  | Some message => (None, Some message)
  | None =>
      match rows with
      | [] => (None, None)
      | [row] => (Some row, None)
      | _ => (None, Some severalRows)
      end
  end.

(** *** Cancelling (the calendar page's [cancelBooking]) *)

Inductive CancelOutcome :=
| CancelToLogin
| CancelToast (toast : Toast).

(** [.update({ status: "cancelled", cancelled_at }).eq("id", bookingId)]. *)
Definition markCancelled (at_ : Z) (bookingId : Z) (row : BookingRow)
    : BookingRow :=
  if row_id row =? bookingId
  then {| row_id := row_id row; row_house_id := row_house_id row;
          row_created_by := row_created_by row;
          row_guest_count := row_guest_count row;
          row_start_date := row_start_date row;
          row_end_date := row_end_date row;
          row_status := cancelled; row_note := row_note row;
          row_cancelled_at := Some at_ |}
  else row.

(** The run of [cancelBooking] up to its toast, and the table it leaves.
    [fetchFault] and [updateFault] are what the store may answer to the two
    statements, [at_] the time of the call. *)
Definition cancelBooking (severalRows : string) (user : option User) (at_ : Z)
    (fetchFault updateFault : option string)
    (table : list BookingRow) (bookingId : Z)
    : CancelOutcome * list BookingRow :=
  match user with
  | None => (CancelToLogin, table)
  | Some u =>
      match maybeSingle severalRows fetchFault
              (List.filter (fun row => row_id row =? bookingId) table) with
      | (_, Some message) => (CancelToast (ToastError message), table)
      | (None, None) => (CancelToast (ToastError "Booking not found."), table)
      | (Some row, None) =>
          if negb (String.eqb (row_created_by row) (user_id u))
          then (CancelToast (ToastError "You can only cancel your own booking."),
                table)
          else if negb (is_active (row_status row))
          then (CancelToast (ToastError "This booking is already cancelled."),
                table)
          else
            match updateFault with
            | Some message => (CancelToast (ToastError message), table)
            | None =>
                (CancelToast (ToastSuccess "Booking cancelled."),
                 List.map (markCancelled at_ bookingId) table)
            end
      end
  end.

(** *** Permanent deletion (the route [POST /api/admin-delete-booking]) *)

(** What [req.json()] gives: no JSON at all (it throws), [null], or an
    object with the two fields the route reads. *)
Inductive DeleteBody :=
| NotJson (message : string)
| JsonNull
| JsonObject (accessToken : option string) (bookingId : option Z).

Record Backend := {
  sessions : gmap string string;   (* access token -> user id *)
  profiles : list Profile;
  bookingRowsTable : list BookingRow;
  profilesFault : option string;
  deleteFault : option string
}.

Inductive ApiResponse :=
| ApiOk
| ApiError (httpStatus : Z) (error : string).

Definition adminDeletePOST (severalRows : string) (be : Backend) (body : DeleteBody)
    : ApiResponse * list BookingRow :=
  let table := bookingRowsTable be in
  match body with
  | NotJson message => (ApiError 500 message, table)
  | JsonNull => (ApiError 400 "Missing fields", table)
  | JsonObject accessToken bookingId =>
      match accessToken, bookingId with
      | Some token, Some bid =>
          if String.eqb token "" || (bid =? 0)
          then (ApiError 400 "Missing fields", table)
          else
            match sessions be !! token with
            | None => (ApiError 401 "Not authenticated", table)
            | Some userId =>
                if String.eqb userId ""
                then (ApiError 401 "Not authenticated", table)
                else
                  match maybeSingle severalRows (profilesFault be)
                          (List.filter
                             (fun p => String.eqb (profile_id p) userId)
                             (profiles be)) with
                  | (_, Some message) => (ApiError 500 message, table)
                  | (None, None) => (ApiError 403 "Forbidden", table)
                  | (Some prof, None) =>
                      match is_admin prof with
                      | Some true =>
                          match deleteFault be with
                          | Some message => (ApiError 500 message, table)
                          | None =>
                              (ApiOk,
                               List.filter
                                 (fun row => negb (row_id row =? bid)) table)
                          end
                      | _ => (ApiError 403 "Forbidden", table)
                      end
                  end
            end
      | _, _ => (ApiError 400 "Missing fields", table)
      end
  end.

(** *** Signing in (the login page's [sendLink]) *)

(** [s.includes(needle)]. *)
Fixpoint includes (needle s : string) : bool :=
  String.prefix needle s
  || match s with
     | EmptyString => false
     | String _ s' => includes needle s'
     end.

Record LinkOutcome := {
  toast : Toast;
  requested : option string;   (* the address given to [signInWithOtp] *)
  emailField : string          (* the input's text afterwards *)
}.

Section Login.

Variable trim : string -> string.
Variable toLowerCase : string -> string.

Definition sendLink (otpFault : option string) (email : string) : LinkOutcome :=
  let clean := toLowerCase (trim email) in
  if String.eqb clean ""
  then {| toast := ToastError "Please enter your email.";
          requested := None; emailField := email |}
  else if negb (includes "@" clean) || negb (includes "." clean)
  then {| toast := ToastError "Please enter a valid email address.";
          requested := None; emailField := email |}
  else
    match otpFault with
    | Some message =>
        {| toast := ToastError message;
           requested := Some clean; emailField := email |}
    | None =>
        {| toast := ToastSuccess "Registration link sent! Check your email.";
           requested := Some clean; emailField := "" |}
    end.

End Login.

(** *** Values for the examples *)

Definition aliceRow : BookingRow :=
  {| row_id := 41; row_house_id := 1; row_created_by := "7f3c";
     row_guest_count := 2%Q; row_start_date := isoDate 2026 1 10;
     row_end_date := isoDate 2026 1 15; row_status := active;
     row_note := None; row_cancelled_at := None |}.

Definition bobRow : BookingRow :=
  {| row_id := 42; row_house_id := 2; row_created_by := "b0b0";
     row_guest_count := 4%Q; row_start_date := isoDate 2025 12 28;
     row_end_date := isoDate 2026 1 3; row_status := active;
     row_note := Some "late arrival"; row_cancelled_at := None |}.

Definition adminProfile : Profile :=
  {| profile_id := "ad01"; profile_name := Some "Pat";
     profile_email := Some "pat@example.com"; profile_color := None;
     is_admin := Some true |}.

Definition guestProfile : Profile :=
  {| profile_id := "7f3c"; profile_name := Some "Alice";
     profile_email := Some "alice@example.com"; profile_color := None;
     is_admin := Some false |}.

Definition backend : Backend :=
  {| sessions := {[ "tok-admin" := "ad01"; "tok-guest" := "7f3c" ]};
     profiles := [adminProfile; guestProfile];
     bookingRowsTable := [aliceRow; bobRow];
     profilesFault := None;
     deleteFault := None |}.

(** The backend with another bookings table. *)
Definition withRows (be : Backend) (table : list BookingRow) : Backend :=
  {| sessions := sessions be; profiles := profiles be;
     bookingRowsTable := table;
     profilesFault := profilesFault be; deleteFault := deleteFault be |}.

(** ** Facts on rounding and local midnights *)

Lemma roundDays_exact (n r : Z) :
  2 * Z.abs r < msPerDay -> roundDays (n * msPerDay + r) = n.
Proof.
  intros Hr. unfold roundDays. unfold msPerDay in *.
  symmetry. apply (Z.div_unique_pos _ _ n (2 * r + 86400000)); lia.
Qed.

Lemma localMidnight_diff (tz : Z -> Z) (d1 d2 : Z) :
  localMidnight tz d2 - localMidnight tz d1
  = (d2 - d1) * msPerDay + (tz d1 - tz d2).
Proof. unfold localMidnight. ring. Qed.

Lemma roundDays_midnights (tz : Z -> Z) (d1 d2 : Z) :
  steady tz ->
  roundDays (localMidnight tz d2 - localMidnight tz d1) = d2 - d1.
Proof.
  intros Hs. rewrite localMidnight_diff. apply roundDays_exact, Hs.
Qed.

Lemma localMidnight_lt (tz : Z -> Z) (d1 d2 : Z) :
  steady tz -> (localMidnight tz d1 < localMidnight tz d2 <-> d1 < d2).
Proof.
  intros Hs. pose proof (Hs d1 d2) as H. pose proof (localMidnight_diff tz d1 d2) as E.
  unfold msPerDay in *.
  destruct (Z.eq_dec d1 d2) as [->|Hne]; lia.
Qed.

Lemma localMidnight_le (tz : Z -> Z) (d1 d2 : Z) :
  steady tz -> (localMidnight tz d1 <= localMidnight tz d2 <-> d1 <= d2).
Proof.
  intros Hs. pose proof (localMidnight_lt tz d2 d1 Hs). lia.
Qed.

Lemma positive_part_days (tz : Z -> Z) (x y : Z) :
  steady tz ->
  (if localMidnight tz x - localMidnight tz y <=? 0 then 0
   else roundDays (localMidnight tz x - localMidnight tz y))
  = Z.max 0 (x - y).
Proof.
  intros Hs. rewrite (roundDays_midnights tz y x Hs).
  pose proof (localMidnight_le tz x y Hs) as Hle.
  destruct (Z.leb_spec (localMidnight tz x - localMidnight tz y) 0); lia.
Qed.

Lemma countOverlapDays_clamp (tz : Z -> Z) (bs be ws we : Z) :
  steady tz ->
  countOverlapDays tz bs be (localMidnight tz ws) (localMidnight tz we)
  = overlapDays bs be ws we.
Proof.
  intros Hs. unfold countOverlapDays, overlapDays. cbv zeta.
  pose proof (localMidnight_lt tz bs ws Hs) as H1.
  pose proof (localMidnight_lt tz we be Hs) as H2.
  destruct (Z.ltb_spec (localMidnight tz bs) (localMidnight tz ws)) as [L1|L1];
    destruct (Z.gtb_spec (localMidnight tz be) (localMidnight tz we)) as [L2|L2];
    rewrite (positive_part_days tz _ _ Hs); lia.
Qed.

(** ** Month lengths *)

Lemma daysFromCivil_early (y m d : Z) :
  m <= 2 ->
  daysFromCivil y m d = yearStart (y - 1) + (153 * (m + 9) + 2) / 5 + d - 1 - 719468.
Proof.
  intros Hm. unfold daysFromCivil, yearStart.
  destruct (Z.leb_spec m 2); [|lia]. destruct (Z.gtb_spec m 2); [lia|]. lia.
Qed.

Lemma daysFromCivil_late (y m d : Z) :
  2 < m ->
  daysFromCivil y m d = yearStart y + (153 * (m - 3) + 2) / 5 + d - 1 - 719468.
Proof.
  intros Hm. unfold daysFromCivil, yearStart.
  destruct (Z.leb_spec m 2); [lia|]. destruct (Z.gtb_spec m 2); [|lia]. lia.
Qed.

Lemma yearStart_step (y : Z) :
  yearStart y - yearStart (y - 1) = if isLeapYear y then 366 else 365.
Proof.
  unfold yearStart, isLeapYear.
  destruct (Z.eqb_spec (y mod 4) 0); destruct (Z.eqb_spec (y mod 100) 0);
    destruct (Z.eqb_spec (y mod 400) 0); cbn [andb orb negb];
    Z.div_mod_to_equations; lia.
Qed.

Ltac eval_day_of_year :=
  repeat match goal with
         | |- context [(153 * ?mp + 2) / 5] =>
             let v := eval vm_compute in ((153 * mp + 2) / 5) in
             replace ((153 * mp + 2) / 5) with v by (vm_compute; reflexivity)
         end.

Lemma daysFromCivil_next_month (y m : Z) :
  1 <= m <= 11 ->
  daysFromCivil y (m + 1) 1 - daysFromCivil y m 1 = daysInMonth y m.
Proof.
  intros Hm.
  destruct (Z.eq_dec m 1) as [->|H1].
  { rewrite !daysFromCivil_early by lia. generalize (yearStart (y - 1)).
    intros s. replace (daysInMonth y 1) with 31 by reflexivity. eval_day_of_year. lia. }
  destruct (Z.eq_dec m 2) as [->|H2].
  { rewrite daysFromCivil_late, daysFromCivil_early by lia.
    pose proof (yearStart_step y) as Hy. unfold daysInMonth.
    change (2 =? 2) with true. cbv iota.
    revert Hy. generalize (yearStart y) (yearStart (y - 1)). intros s s' Hy.
    eval_day_of_year. destruct (isLeapYear y); lia. }
  rewrite !daysFromCivil_late by lia. unfold daysInMonth.
  assert (Hc : m = 3 \/ m = 4 \/ m = 5 \/ m = 6 \/ m = 7
               \/ m = 8 \/ m = 9 \/ m = 10 \/ m = 11) by lia.
  generalize (yearStart y). intros s.
  repeat (destruct Hc as [->|Hc]); try subst m;
    cbn [Z.eqb Pos.eqb orb]; eval_day_of_year; lia.
Qed.

Lemma daysFromCivil_next_year (y : Z) :
  daysFromCivil (y + 1) 1 1 - daysFromCivil y 12 1 = daysInMonth y 12.
Proof.
  rewrite daysFromCivil_early, daysFromCivil_late by lia.
  replace (y + 1 - 1) with y by lia. generalize (yearStart y). intros s.
  replace (daysInMonth y 12) with 31 by reflexivity. eval_day_of_year. lia.
Qed.

(** ** The window of the previous month *)

Lemma newDate_month (tz : Z -> Z) (y m : Z) :
  99 < y -> 1 <= m <= 12 ->
  newDate tz y (m - 1) 1 = localMidnight tz (isoDate y m 1).
Proof.
  intros Hy Hm. unfold newDate, makeDay, isoDate.
  destruct (Z.leb_spec 0 y); [|lia]. destruct (Z.leb_spec y 99); [lia|].
  cbn [andb].
  replace ((m - 1) / 12) with 0 by (Z.to_euclidean_division_equations; lia).
  replace ((m - 1) mod 12 + 1) with m by (Z.to_euclidean_division_equations; lia).
  f_equal. replace (y + 0) with y by lia. lia.
Qed.

Lemma newDate_rollover (tz : Z -> Z) (y : Z) :
  99 < y ->
  newDate tz y 12 1 = localMidnight tz (isoDate (y + 1) 1 1).
Proof.
  intros Hy. unfold newDate, makeDay, isoDate.
  destruct (Z.leb_spec 0 y); [|lia]. destruct (Z.leb_spec y 99); [lia|].
  cbn [andb]. change (12 / 12) with 1. change (12 mod 12 + 1) with 1.
  f_equal. lia.
Qed.

Lemma previousMonth_bounds (tz : Z -> Z) (now : Clock) :
  wallClock now ->
  let w := getPreviousMonthWindow tz now in
  let '(py, pm) := lastCompletedMonth now in
  monthStart w = localMidnight tz (isoDate py pm 1)
  /\ monthEnd w
     = localMidnight tz (isoDate (getFullYear now) (getMonth now + 1) 1)
  /\ isoDate (getFullYear now) (getMonth now + 1) 1 - isoDate py pm 1
     = daysInMonth py pm.
Proof.
  intros [Hm Hy]. unfold lastCompletedMonth, getPreviousMonthWindow.
  cbv zeta. cbn [monthStart monthEnd].
  destruct (Z.eqb_spec (getMonth now) 0) as [E|E].
  - rewrite E. change (0 - 1 <? 0) with true. cbv iota.
    change (Z.rem (0 - 1 + 12) 12) with (12 - 1).
    rewrite newDate_month by lia.
    change (12 - 1 + 1) with 12.
    rewrite newDate_rollover by lia.
    replace (getFullYear now - 1 + 1) with (getFullYear now) by lia.
    repeat split.
    pose proof (daysFromCivil_next_year (getFullYear now - 1)) as H.
    replace (getFullYear now - 1 + 1) with (getFullYear now) in H by lia.
    exact H.
  - destruct (Z.ltb_spec (getMonth now - 1) 0); [lia|].
    replace (Z.rem (getMonth now - 1 + 12) 12) with (getMonth now - 1)
      by (Z.to_euclidean_division_equations; lia).
    rewrite newDate_month by lia.
    replace (getMonth now - 1 + 1) with (getMonth now + 1 - 1) by lia.
    rewrite newDate_month by lia.
    repeat split. apply daysFromCivil_next_month. lia.
Qed.

(** ** Aggregation *)

Lemma roundDays_mono (a b : Z) : a <= b -> roundDays a <= roundDays b.
Proof.
  intros H. unfold roundDays, msPerDay.
  apply Z.div_le_mono; lia.
Qed.

Lemma roundDays_pos (ms : Z) : 0 < ms -> 0 <= roundDays ms.
Proof.
  intros H. unfold roundDays, msPerDay. apply Z.div_pos; lia.
Qed.

Lemma countOverlapDays_nonneg (tz : Z -> Z) (bs be : Z) (winStart winEnd : Z) :
  0 <= countOverlapDays tz bs be winStart winEnd.
Proof.
  unfold countOverlapDays. cbv zeta.
  match goal with |- context [?ms <=? 0] => destruct (Z.leb_spec ms 0) end.
  - lia.
  - now apply roundDays_pos.
Qed.

Lemma countOverlapDays_le_window (tz : Z -> Z) (bs be : Z) (winStart winEnd : Z) :
  0 < countOverlapDays tz bs be winStart winEnd ->
  countOverlapDays tz bs be winStart winEnd <= roundDays (winEnd - winStart).
Proof.
  unfold countOverlapDays. cbv zeta.
  destruct (Z.ltb_spec (localMidnight tz bs) winStart);
    destruct (Z.gtb_spec (localMidnight tz be) winEnd);
    match goal with |- context [?ms <=? 0] => destruct (Z.leb_spec ms 0) end;
    intros Hpos; try lia; apply roundDays_mono; lia.
Qed.

Lemma daysOf_nonneg (tz : Z -> Z) (winStart winEnd : Z) (row : Booking) :
  0 <= daysOf tz winStart winEnd row.
Proof. apply countOverlapDays_nonneg. Qed.

Lemma houseDays_cons (tz : Z -> Z) (wS wE k : Z) (row : Booking) (rows : list Booking) :
  houseDays tz wS wE k (row :: rows)
  = (if house_id row =? k then daysOf tz wS wE row else 0)
    + houseDays tz wS wE k rows.
Proof.
  unfold houseDays. simpl. destruct (house_id row =? k); reflexivity.
Qed.

Lemma houseDays_nonneg (tz : Z -> Z) (wS wE k : Z) (rows : list Booking) :
  0 <= houseDays tz wS wE k rows.
Proof.
  induction rows as [|row rows IH]; [unfold houseDays; simpl; lia|].
  rewrite houseDays_cons. pose proof (daysOf_nonneg tz wS wE row).
  destruct (house_id row =? k); lia.
Qed.

Lemma houseDays_app (tz : Z -> Z) (wS wE k : Z) (l1 l2 : list Booking) :
  houseDays tz wS wE k (l1 ++ l2)
  = houseDays tz wS wE k l1 + houseDays tz wS wE k l2.
Proof.
  induction l1 as [|row l1 IH]; [reflexivity|].
  rewrite <- app_comm_cons, !houseDays_cons, IH. lia.
Qed.

Lemma houseDays_Permutation (tz : Z -> Z) (wS wE k : Z) (l1 l2 : list Booking) :
  Permutation l1 l2 -> houseDays tz wS wE k l1 = houseDays tz wS wE k l2.
Proof.
  induction 1 as [|x l l' _ IH|x y l|l l' l'' _ IH1 _ IH2].
  - reflexivity.
  - rewrite !houseDays_cons, IH. reflexivity.
  - rewrite !houseDays_cons. lia.
  - congruence.
Qed.

Lemma filter_Permutation {A : Type} (f : A -> bool) (l1 l2 : list A) :
  Permutation l1 l2 -> Permutation (List.filter f l1) (List.filter f l2).
Proof.
  induction 1 as [|x l l' _ IH|x y l|l l' l'' _ IH1 _ IH2]; simpl.
  - constructor.
  - destruct (f x); [now constructor|assumption].
  - destruct (f x), (f y); try reflexivity. apply perm_swap.
  - now transitivity (List.filter f l').
Qed.

Lemma accumulate_lookup (tz : Z -> Z) (wS wE : Z) (m : gmap Z Z)
    (row : Booking) (k : Z) :
  default 0 (accumulate tz wS wE m row !! k)
  = default 0 (m !! k) + (if house_id row =? k then daysOf tz wS wE row else 0).
Proof.
  unfold accumulate. cbv zeta. fold (daysOf tz wS wE row).
  pose proof (daysOf_nonneg tz wS wE row) as Hn.
  destruct (Z.leb_spec (daysOf tz wS wE row) 0).
  - destruct (house_id row =? k); lia.
  - rewrite lookup_insert.
    destruct (Z.eqb_spec (house_id row) k) as [->|Hne].
    + rewrite decide_True by reflexivity. simpl. lia.
    + rewrite decide_False by assumption. lia.
Qed.

Lemma fold_accumulate_lookup (tz : Z -> Z) (wS wE : Z) (rows : list Booking)
    (m : gmap Z Z) (k : Z) :
  default 0 (fold_left (accumulate tz wS wE) rows m !! k)
  = default 0 (m !! k) + houseDays tz wS wE k rows.
Proof.
  revert m. induction rows as [|row rows IH]; intros m.
  - simpl. unfold houseDays. simpl. lia.
  - simpl. rewrite IH, accumulate_lookup, houseDays_cons. lia.
Qed.

Lemma aggregateUsage_lookup (tz : Z -> Z) (wS wE : Z) (rows : list Booking) (k : Z) :
  default 0 (aggregateUsage tz wS wE rows !! k) = houseDays tz wS wE k rows.
Proof.
  unfold aggregateUsage. rewrite fold_accumulate_lookup, lookup_empty.
  simpl. lia.
Qed.

Lemma accumulate_keeps (tz : Z -> Z) (wS wE : Z) (m : gmap Z Z)
    (row : Booking) (k : Z) :
  is_Some (m !! k) -> is_Some (accumulate tz wS wE m row !! k).
Proof.
  intros Hk. unfold accumulate. cbv zeta.
  match goal with |- context [?d <=? 0] => destruct (d <=? 0) end;
    [assumption|].
  rewrite lookup_insert. case_decide; [eexists; reflexivity|assumption].
Qed.

Lemma fold_accumulate_keeps (tz : Z -> Z) (wS wE : Z) (rows : list Booking)
    (m : gmap Z Z) (k : Z) :
  is_Some (m !! k) -> is_Some (fold_left (accumulate tz wS wE) rows m !! k).
Proof.
  revert m. induction rows as [|row rows IH]; intros m Hk; [assumption|].
  simpl. apply IH, accumulate_keeps, Hk.
Qed.

Lemma aggregateUsage_records (tz : Z -> Z) (wS wE : Z) (rows : list Booking)
    (row : Booking) :
  In row rows -> 0 < daysOf tz wS wE row ->
  is_Some (aggregateUsage tz wS wE rows !! house_id row).
Proof.
  unfold aggregateUsage. generalize (∅ : gmap Z Z).
  induction rows as [|r rows IH]; intros m Hin Hpos; [destruct Hin|].
  simpl. destruct Hin as [->|Hin].
  - apply fold_accumulate_keeps. unfold accumulate. cbv zeta.
    fold (daysOf tz wS wE row).
    destruct (Z.leb_spec (daysOf tz wS wE row) 0); [lia|].
    rewrite lookup_insert_eq. eexists; reflexivity.
  - now apply IH.
Qed.

Lemma houseDays_member (tz : Z -> Z) (wS wE : Z) (rows : list Booking)
    (row : Booking) :
  In row rows -> daysOf tz wS wE row <= houseDays tz wS wE (house_id row) rows.
Proof.
  intros Hin. apply in_split in Hin as (l1 & l2 & ->).
  rewrite houseDays_app, houseDays_cons, Z.eqb_refl.
  pose proof (houseDays_nonneg tz wS wE (house_id row) l1).
  pose proof (houseDays_nonneg tz wS wE (house_id row) l2).
  lia.
Qed.

(** ** Response rows *)

Lemma buildRows_ext (label : string) (t : Z) (m m' : gmap Z Z) (hs : list House) :
  (forall h, In h hs -> default 0 (m !! id h) = default 0 (m' !! id h)) ->
  buildRows label t m hs = buildRows label t m' hs.
Proof.
  intros H. unfold buildRows. apply map_ext_in. intros h Hh.
  rewrite (H h Hh). reflexivity.
Qed.

Lemma buildRows_length (label : string) (t : Z) (m : gmap Z Z) (hs : list House) :
  length (buildRows label t m hs) = length hs.
Proof. unfold buildRows. apply length_map. Qed.

Lemma buildRows_lookup (label : string) (t : Z) (m : gmap Z Z)
    (hs : list House) (i : nat) (h : House) :
  hs !! i = Some h ->
  buildRows label t m hs !! i
  = Some {| houseId := id h; houseName := name h; month := label;
            daysWithBookings := default 0 (m !! id h);
            rowTotalDays := t;
            usageRate := if t >? 0
                         then (inject_Z (default 0%Z (m !! id h)) / inject_Z t)%Q
                         else 0%Q |}.
Proof.
  intros Hi. unfold buildRows. rewrite list_lookup_fmap, Hi. reflexivity.
Qed.

Lemma GET_store (tz : Z -> Z) (now : Clock) (hs : list House) (bs : list Booking) :
  let w := getPreviousMonthWindow tz now in
  GET tz now (store hs bs)
  = Json200 (label w) (totalDays w)
      (buildRows (label w) (totalDays w)
         (aggregateUsage tz (monthStart w) (monthEnd w) (bookingRows tz now bs))
         hs).
Proof. reflexivity. Qed.

Lemma window_totalDays (tz : Z -> Z) (now : Clock) :
  totalDays (getPreviousMonthWindow tz now)
  = roundDays (monthEnd (getPreviousMonthWindow tz now)
               - monthStart (getPreviousMonthWindow tz now)).
Proof. reflexivity. Qed.

(** ** The model on the specification's scenario *)

Example epoch_is_day_zero : isoDate 1970 1 1 = 0.
Proof. reflexivity. Qed.

Example leap_day_2024 : isoDate 2024 3 1 - isoDate 2024 2 28 = 2.
Proof. reflexivity. Qed.

Example january_window_utc :
  getPreviousMonthWindow utc february2026
  = {| monthStart := 1767225600000; monthEnd := 1769904000000;
       totalDays := 31; label := "2026-01" |}.
Proof. vm_compute. reflexivity. Qed.

Example december_window_from_january :
  label (getPreviousMonthWindow seasonal {| getFullYear := 2026; getMonth := 0 |})
  = "2025-12".
Proof. vm_compute. reflexivity. Qed.

Example scenario_days :
  List.map daysWithBookings
    (rowsOf (GET seasonal february2026 (store scenarioHouses scenarioBookings)))
  = [11; 2; 0].
Proof. vm_compute. reflexivity. Qed.

Example scenario_rates :
  List.map usageRate
    (rowsOf (GET utc february2026 (store scenarioHouses scenarioBookings)))
  = [(11 # 31)%Q; (2 # 31)%Q; (0 # 31)%Q].
Proof. vm_compute. reflexivity. Qed.

Example degenerate_window_rate :
  List.map usageRate (buildRows "none" 0 {[ 1 := 5 ]} scenarioHouses)
  = [0%Q; 0%Q; 0%Q].
Proof. vm_compute. reflexivity. Qed.

Example store_failure :
  GET utc february2026
    {| houses := scenarioHouses; bookings := scenarioBookings;
       housesFault := None; bookingsFault := Some "permission denied" |}
  = Json500 "permission denied".
Proof. reflexivity. Qed.

Lemma steady_utc : steady utc.
Proof. intros d1 d2. unfold utc, msPerDay. simpl. lia. Defined.

Lemma steady_utcPlus1 : steady utcPlus1.
Proof. intros d1 d2. unfold utcPlus1, msPerDay. simpl. lia. Defined.

Lemma steady_seasonal : steady seasonal.
Proof.
  intros d1 d2. unfold seasonal, msPerDay.
  destruct (d1 mod 365 <? 180); destruct (d2 mod 365 <? 180); simpl; lia.
Defined.

Lemma wallClock_2026_02 : wallClock february2026.
Proof. unfold wallClock. simpl. lia. Defined.

Lemma wallClock_2012_01 : wallClock january2012.
Proof. unfold wallClock. simpl. lia. Defined.

(** The two zones that moved across the date line are not steady. *)
Lemma apia_not_steady : ~ steady apia.
Proof.
  intros H. specialize (H (isoDate 2011 12 29) (isoDate 2011 12 31)).
  vm_compute in H. discriminate H.
Qed.

Lemma kwajalein_not_steady : ~ steady kwajalein.
Proof.
  intros H. specialize (H (isoDate 1969 9 30) (isoDate 1969 10 1)).
  vm_compute in H. discriminate H.
Qed.

(** ** The overlap primitive *)

(** C1, in a steady time zone.  On a host whose zone is steady, for every
    booking range [startDate, endDate) and every window
    [windowStart, windowEnd) of whole days, [countOverlapDays] returns
    max (0, min (endDate, windowEnd) - max (startDate, windowStart)); a
    booking from 2026-01-30 to 2026-02-02 against the window of January 2026
    (the one computed in February 2026) gives exactly 2. *)
Theorem countOverlapDays_is_clamped_overlap
    (tz : Z -> Z) (startDate endDate windowStart windowEnd : Z) :
  steady tz ->
  countOverlapDays tz startDate endDate
    (localMidnight tz windowStart) (localMidnight tz windowEnd)
  = Z.max 0 (Z.min endDate windowEnd - Z.max startDate windowStart)
  /\ (let january := getPreviousMonthWindow tz february2026 in
      countOverlapDays tz (isoDate 2026 1 30) (isoDate 2026 2 2)
        (monthStart january) (monthEnd january) = 2).
Proof.
  intros Hs. split.
  - apply (countOverlapDays_clamp tz _ _ _ _ Hs).
  - cbv zeta.
    pose proof (previousMonth_bounds tz _ wallClock_2026_02) as H.
    cbv zeta in H. fold february2026 in H.
    change (lastCompletedMonth february2026) with (2026, 1) in H.
    cbv iota beta in H. destruct H as (-> & -> & _).
    rewrite (countOverlapDays_clamp tz _ _ _ _ Hs). reflexivity.
Qed.

Lemma countOverlapDays_is_clamped_overlap_witness :
  steady seasonal
  /\ countOverlapDays seasonal (isoDate 2025 12 28) (isoDate 2026 1 3)
       (localMidnight seasonal (isoDate 2026 1 1))
       (localMidnight seasonal (isoDate 2026 2 1))
     = Z.max 0 (Z.min (isoDate 2026 1 3) (isoDate 2026 2 1)
                - Z.max (isoDate 2025 12 28) (isoDate 2026 1 1)).
Proof.
  split; [exact steady_seasonal|].
  exact (proj1 (countOverlapDays_is_clamped_overlap seasonal
                  (isoDate 2025 12 28) (isoDate 2026 1 3)
                  (isoDate 2026 1 1) (isoDate 2026 2 1) steady_seasonal)).
Defined.

(** C1, as stated for every host, fails where the zone moved across the
    date line.  In Pacific/Apia, which skipped 2011-12-30, a booking from
    2011-12-29 to 2011-12-31 against the window of December 2011 (the one
    computed in January 2012) gives 1, where the formula gives 2. *)
Lemma countOverlapDays_misses_the_formula_in_apia :
  let december := getPreviousMonthWindow apia january2012 in
  monthStart december = localMidnight apia (isoDate 2011 12 1)
  /\ monthEnd december = localMidnight apia (isoDate 2012 1 1)
  /\ countOverlapDays apia (isoDate 2011 12 29) (isoDate 2011 12 31)
       (monthStart december) (monthEnd december) = 1
  /\ Z.max 0 (Z.min (isoDate 2011 12 31) (isoDate 2012 1 1)
              - Z.max (isoDate 2011 12 29) (isoDate 2011 12 1)) = 2.
Proof. cbv zeta. repeat split; vm_compute; reflexivity. Qed.

(** C4.  [countOverlapDays] returns an integer that is never negative; it
    returns 0 when the booking range and the window share no day; and for a
    booking with endDate <= startDate it returns 0, whatever the window.
    The function is total: every input has a result. *)
Theorem countOverlapDays_never_negative
    (tz : Z -> Z) (startDate endDate windowStart windowEnd : Z)
    (winStart winEnd : Z) :
  steady tz ->
  0 <= countOverlapDays tz startDate endDate winStart winEnd
  /\ ((forall d, ~ (startDate <= d < endDate /\ windowStart <= d < windowEnd)) ->
      countOverlapDays tz startDate endDate
        (localMidnight tz windowStart) (localMidnight tz windowEnd) = 0)
  /\ (endDate <= startDate ->
      countOverlapDays tz startDate endDate winStart winEnd = 0).
Proof.
  intros Hs. split; [apply countOverlapDays_nonneg|]. split.
  - intros Hdisj. rewrite (countOverlapDays_clamp tz _ _ _ _ Hs).
    unfold overlapDays.
    destruct (Z_le_gt_dec (Z.min endDate windowEnd - Z.max startDate windowStart) 0)
      as [Hle|Hgt]; [lia|].
    exfalso. apply (Hdisj (Z.max startDate windowStart)). lia.
  - intros Hmal. unfold countOverlapDays. cbv zeta.
    pose proof (proj2 (localMidnight_le tz endDate startDate Hs) Hmal) as Hle.
    destruct (Z.ltb_spec (localMidnight tz startDate) winStart);
      destruct (Z.gtb_spec (localMidnight tz endDate) winEnd);
      match goal with |- context [?ms <=? 0] => destruct (Z.leb_spec ms 0) end;
      lia.
Qed.

Lemma countOverlapDays_never_negative_witness :
  steady seasonal
  /\ (forall d, ~ (isoDate 2026 2 3 <= d < isoDate 2026 2 5
                   /\ isoDate 2026 1 1 <= d < isoDate 2026 2 1))
  /\ isoDate 2026 1 12 <= isoDate 2026 1 15
  /\ countOverlapDays seasonal (isoDate 2026 2 3) (isoDate 2026 2 5)
       (localMidnight seasonal (isoDate 2026 1 1))
       (localMidnight seasonal (isoDate 2026 2 1)) = 0
  /\ countOverlapDays seasonal (isoDate 2026 1 15) (isoDate 2026 1 12)
       (localMidnight seasonal (isoDate 2026 1 1))
       (localMidnight seasonal (isoDate 2026 2 1)) = 0.
Proof.
  assert (Hd : forall d, ~ (isoDate 2026 2 3 <= d < isoDate 2026 2 5
                            /\ isoDate 2026 1 1 <= d < isoDate 2026 2 1)).
  { intros d. change (isoDate 2026 2 3) with 20487.
    change (isoDate 2026 2 1) with 20485. lia. }
  assert (H : isoDate 2026 1 12 <= isoDate 2026 1 15) by (vm_compute; discriminate).
  split; [exact steady_seasonal|]. split; [exact Hd|]. split; [exact H|].
  split.
  - exact (proj1 (proj2 (countOverlapDays_never_negative seasonal
                           (isoDate 2026 2 3) (isoDate 2026 2 5)
                           (isoDate 2026 1 1) (isoDate 2026 2 1) 0 0
                           steady_seasonal)) Hd).
  - exact (proj2 (proj2 (countOverlapDays_never_negative seasonal
                           (isoDate 2026 1 15) (isoDate 2026 1 12) 0 0
                           (localMidnight seasonal (isoDate 2026 1 1))
                           (localMidnight seasonal (isoDate 2026 2 1))
                           steady_seasonal)) H).
Defined.

(** C7, in a steady time zone.  On a host whose zone is steady, for every
    booking (start_date <= end_date; the data model has
    start_date < end_date) whose range lies within the window,
    [countOverlapDays] returns end_date - start_date, its full duration. *)
Theorem countOverlapDays_contained
    (tz : Z -> Z) (startDate endDate windowStart windowEnd : Z) :
  steady tz ->
  startDate <= endDate ->
  windowStart <= startDate ->
  endDate <= windowEnd ->
  countOverlapDays tz startDate endDate
    (localMidnight tz windowStart) (localMidnight tz windowEnd)
  = endDate - startDate.
Proof.
  intros Hs Hwf H1 H2. rewrite (countOverlapDays_clamp tz _ _ _ _ Hs).
  unfold overlapDays. lia.
Qed.

Lemma countOverlapDays_contained_witness :
  steady seasonal
  /\ isoDate 2026 1 10 <= isoDate 2026 1 15
  /\ isoDate 2026 1 1 <= isoDate 2026 1 10
  /\ isoDate 2026 1 15 <= isoDate 2026 2 1
  /\ countOverlapDays seasonal (isoDate 2026 1 10) (isoDate 2026 1 15)
       (localMidnight seasonal (isoDate 2026 1 1))
       (localMidnight seasonal (isoDate 2026 2 1))
     = isoDate 2026 1 15 - isoDate 2026 1 10.
Proof.
  assert (H0 : isoDate 2026 1 10 <= isoDate 2026 1 15) by (vm_compute; discriminate).
  assert (H1 : isoDate 2026 1 1 <= isoDate 2026 1 10) by (vm_compute; discriminate).
  assert (H2 : isoDate 2026 1 15 <= isoDate 2026 2 1) by (vm_compute; discriminate).
  split; [exact steady_seasonal|]. split; [exact H0|].
  split; [exact H1|]. split; [exact H2|].
  exact (countOverlapDays_contained seasonal _ _ _ _ steady_seasonal H0 H1 H2).
Defined.

(** C7, as stated for every host, fails where the zone moved across the
    date line.  In Pacific/Apia the booking from 2011-12-29 to 2011-12-31
    lies within the window from 2011-12-01 to 2012-01-01 and lasts 2 days
    by its dates; [countOverlapDays] returns 1. *)
Lemma contained_booking_counts_short_in_apia :
  isoDate 2011 12 29 <= isoDate 2011 12 31
  /\ isoDate 2011 12 1 <= isoDate 2011 12 29
  /\ isoDate 2011 12 31 <= isoDate 2012 1 1
  /\ isoDate 2011 12 31 - isoDate 2011 12 29 = 2
  /\ countOverlapDays apia (isoDate 2011 12 29) (isoDate 2011 12 31)
       (localMidnight apia (isoDate 2011 12 1))
       (localMidnight apia (isoDate 2012 1 1)) = 1.
Proof.
  split; [vm_compute; discriminate|]. split; [vm_compute; discriminate|].
  split; [vm_compute; discriminate|]. split; vm_compute; reflexivity.
Qed.

(** ** The aggregator *)

Lemma bookingRows_active (tz : Z -> Z) (now : Clock) (bs : list Booking)
    (row : Booking) :
  In row (bookingRows tz now bs) -> In row bs /\ status row = active.
Proof.
  unfold bookingRows. cbv zeta. rewrite filter_In. intros [Hin Ht].
  split; [assumption|]. unfold touching in Ht.
  destruct (status row); [reflexivity|discriminate].
Qed.

Lemma houseDays_zero (tz : Z -> Z) (wS wE k : Z) (rows : list Booking) :
  (forall row, In row rows -> house_id row = k -> daysOf tz wS wE row <= 0) ->
  houseDays tz wS wE k rows = 0.
Proof.
  induction rows as [|row rows IH]; intros H; [reflexivity|].
  rewrite houseDays_cons, IH by (intros; apply H; [now right|assumption]).
  pose proof (daysOf_nonneg tz wS wE row).
  destruct (Z.eqb_spec (house_id row) k) as [E|E]; [|lia].
  pose proof (H row (or_introl eq_refl) E). lia.
Qed.

(** C2.  With both queries succeeding, the response carries exactly one
    record per house of the houses list, in the order of that list: the
    record at the position of house [h] has its id and name, the window's
    label and totalDays, usageRate = daysWithBookings / totalDays when
    totalDays > 0 and usageRate = 0 otherwise (the division is guarded); a
    house none of whose active bookings has a day in the window gets
    daysWithBookings = 0 and a zero usageRate. *)
Theorem GET_one_record_per_house
    (tz : Z -> Z) (now : Clock) (hs : list House) (bs : list Booking)
    (i : nat) (h : House) :
  hs !! i = Some h ->
  let w := getPreviousMonthWindow tz now in
  let res := GET tz now (store hs bs) in
  res = Json200 (label w) (totalDays w) (rowsOf res)
  /\ length (rowsOf res) = length hs
  /\ exists r,
       rowsOf res !! i = Some r
       /\ houseId r = id h /\ houseName r = name h
       /\ month r = label w /\ rowTotalDays r = totalDays w
       /\ (0 < totalDays w ->
           usageRate r
           = (inject_Z (daysWithBookings r) / inject_Z (totalDays w))%Q)
       /\ (totalDays w <= 0 -> usageRate r = 0%Q)
       /\ ((forall b, In b bs -> house_id b = id h -> status b = active ->
              daysOf tz (monthStart w) (monthEnd w) b <= 0) ->
           daysWithBookings r = 0 /\ (usageRate r == 0)%Q).
Proof.
  intros Hi w res. subst res. rewrite GET_store. fold w. cbn [rowsOf].
  split; [reflexivity|]. split; [apply buildRows_length|].
  eexists. split; [apply (buildRows_lookup _ _ _ _ _ _ Hi)|].
  cbn [houseId houseName month rowTotalDays usageRate daysWithBookings].
  repeat (split; [reflexivity|]).
  split; [|split].
  - intros Hpos. destruct (Z.gtb_spec (totalDays w) 0); [reflexivity|lia].
  - intros Hle. destruct (Z.gtb_spec (totalDays w) 0); [lia|reflexivity].
  - intros Hnone. rewrite aggregateUsage_lookup.
    rewrite houseDays_zero.
    + split; [reflexivity|]. destruct (totalDays w >? 0); [|reflexivity].
      unfold Qdiv. apply Qmult_0_l.
    + intros row Hrow Hk. apply bookingRows_active in Hrow as [Hin Hact].
      now apply Hnone.
Qed.

Lemma GET_one_record_per_house_witness :
  scenarioHouses !! 2%nat = Some {| id := 3; name := "155 Bay Ave" |}
  /\ exists r,
       rowsOf (GET seasonal february2026 (store scenarioHouses scenarioBookings))
         !! 2%nat = Some r
       /\ houseId r = 3 /\ daysWithBookings r = 0 /\ (usageRate r == 0)%Q.
Proof.
  split; [reflexivity|].
  destruct (GET_one_record_per_house seasonal february2026 scenarioHouses
              scenarioBookings 2 {| id := 3; name := "155 Bay Ave" |} eq_refl)
    as (_ & _ & r & Hr & Hid & _ & _ & _ & _ & _ & Hzero).
  exists r. split; [exact Hr|]. split; [exact Hid|].
  apply Hzero. intros b Hin Hh.
  repeat (destruct Hin as [<-|Hin]; [discriminate Hh|]). destruct Hin.
Defined.

(** C10.  Reordering the bookings leaves the response unchanged: every
    daysWithBookings is a sum over the rows of its house. *)
Theorem GET_booking_order_irrelevant
    (tz : Z -> Z) (now : Clock) (hs : list House) (bs bs' : list Booking) :
  Permutation bs bs' ->
  GET tz now (store hs bs) = GET tz now (store hs bs').
Proof.
  intros Hp. rewrite !GET_store. cbv zeta. apply f_equal.
  apply buildRows_ext. intros h _. rewrite !aggregateUsage_lookup.
  apply houseDays_Permutation. unfold bookingRows. cbv zeta.
  now apply filter_Permutation.
Qed.

Lemma GET_booking_order_irrelevant_witness :
  Permutation scenarioBookings (rev scenarioBookings)
  /\ GET seasonal february2026 (store scenarioHouses scenarioBookings)
     = GET seasonal february2026 (store scenarioHouses (rev scenarioBookings)).
Proof.
  split; [apply Permutation_rev|].
  exact (GET_booking_order_irrelevant seasonal february2026 scenarioHouses
           scenarioBookings (rev scenarioBookings)
           (Permutation_rev scenarioBookings)).
Defined.

(** C9.  The response has as many records as there are houses.  A booking
    whose house_id is the id of no house changes no record: the response is
    the same with and without it.  No error arises; when the query returns
    the booking and it has days in the window, those days are held in the
    map under its own house_id, where no record reads them. *)
Theorem GET_discards_unknown_house
    (tz : Z -> Z) (now : Clock) (hs : list House) (bs1 bs2 : list Booking)
    (b : Booking) :
  (forall h, In h hs -> id h <> house_id b) ->
  let w := getPreviousMonthWindow tz now in
  let bs := bs1 ++ b :: bs2 in
  length (rowsOf (GET tz now (store hs bs))) = length hs
  /\ GET tz now (store hs bs) = GET tz now (store hs (bs1 ++ bs2))
  /\ GET tz now (store hs bs)
     = Json200 (label w) (totalDays w) (rowsOf (GET tz now (store hs bs)))
  /\ (In b (bookingRows tz now bs) ->
      0 < daysOf tz (monthStart w) (monthEnd w) b ->
      exists v,
        aggregateUsage tz (monthStart w) (monthEnd w) (bookingRows tz now bs)
          !! house_id b = Some v
        /\ daysOf tz (monthStart w) (monthEnd w) b <= v).
Proof.
  intros Hout w bs. rewrite !GET_store. fold w. cbn [rowsOf].
  split; [apply buildRows_length|]. split; [|split; [reflexivity|]].
  - apply f_equal. apply buildRows_ext. intros h Hh.
    rewrite !aggregateUsage_lookup. unfold bookingRows, bs. fold w.
    rewrite !List.filter_app, !houseDays_app. f_equal. simpl.
    destruct (touching _ _ b); [|reflexivity].
    rewrite houseDays_cons.
    destruct (Z.eqb_spec (house_id b) (id h)) as [E|E]; [|lia].
    exfalso. apply (Hout h Hh). now symmetry.
  - intros Hin Hpos.
    destruct (aggregateUsage_records tz _ _ _ b Hin Hpos) as [v Hv].
    exists v. split; [exact Hv|].
    pose proof (aggregateUsage_lookup tz (monthStart w) (monthEnd w)
                  (bookingRows tz now bs) (house_id b)) as Hsum.
    rewrite Hv in Hsum. simpl in Hsum. rewrite Hsum.
    now apply houseDays_member.
Qed.

Lemma GET_discards_unknown_house_witness :
  (forall h, In h scenarioHouses -> id h <> house_id strayBooking)
  /\ GET seasonal february2026
       (store scenarioHouses (scenarioBookings ++ strayBooking :: []))
     = GET seasonal february2026 (store scenarioHouses (scenarioBookings ++ [])).
Proof.
  assert (H : forall h, In h scenarioHouses -> id h <> house_id strayBooking).
  { intros h Hin. repeat (destruct Hin as [<-|Hin]; [discriminate|]).
    destruct Hin. }
  split; [exact H|].
  exact (proj1 (proj2 (GET_discards_unknown_house seasonal february2026
                         scenarioHouses scenarioBookings [] strayBooking H))).
Defined.

(** ** Bounds on the usage rate *)

Lemma houseDays_none (tz : Z -> Z) (wS wE k : Z) (rows : list Booking) :
  List.filter (fun row => (house_id row =? k) && (0 <? daysOf tz wS wE row)) rows
  = [] ->
  houseDays tz wS wE k rows = 0.
Proof.
  intros Hnil. apply houseDays_zero. intros row Hin Hk.
  destruct (Z.ltb_spec 0 (daysOf tz wS wE row)) as [Hpos|]; [|assumption].
  exfalso.
  assert (Hf : In row (List.filter
                         (fun row => (house_id row =? k)
                                     && (0 <? daysOf tz wS wE row)) rows)).
  { apply filter_In. split; [assumption|].
    apply andb_true_intro. split; [now apply Z.eqb_eq|now apply Z.ltb_lt]. }
  rewrite Hnil in Hf. destruct Hf.
Qed.

Lemma houseDays_single (tz : Z -> Z) (wS wE k : Z) (rows : list Booking) :
  (length (List.filter
             (fun row => ((house_id row =? k) && (0 <? daysOf tz wS wE row))%Z)
             rows) <= 1)%nat ->
  houseDays tz wS wE k rows = 0
  \/ (0 < houseDays tz wS wE k rows <= roundDays (wE - wS)).
Proof.
  induction rows as [|row rows IH]; intros Hlen; [now left|].
  rewrite houseDays_cons. simpl in Hlen.
  pose proof (daysOf_nonneg tz wS wE row) as Hn.
  destruct (Z.eqb_spec (house_id row) k) as [E|E]; simpl in Hlen.
  - destruct (Z.ltb_spec 0 (daysOf tz wS wE row)) as [Hpos|Hz]; simpl in Hlen.
    + rewrite houseDays_none.
      * right. pose proof (countOverlapDays_le_window tz _ _ _ _ Hpos).
        unfold daysOf in *. lia.
      * destruct (List.filter _ rows); [reflexivity|simpl in Hlen; lia].
    + replace (daysOf tz wS wE row) with 0 by lia. now apply IH.
  - now apply IH.
Qed.

Lemma filter_filter_length {A : Type} (f g p : A -> bool) (l : list A) :
  (forall x, f x = true -> g x = true -> p x = true) ->
  (length (List.filter g (List.filter f l)) <= length (List.filter p l))%nat.
Proof.
  intros H. induction l as [|x l IH]; simpl; [lia|].
  destruct (f x) eqn:Ef; simpl.
  - destruct (g x) eqn:Eg; simpl.
    + rewrite (H x Ef Eg). simpl. lia.
    + destruct (p x); simpl; lia.
  - destruct (p x); simpl; lia.
Qed.

Lemma rate_unit_interval (d t : Z) :
  0 <= d <= t -> 0 < t -> (0 <= inject_Z d / inject_Z t <= 1)%Q.
Proof.
  intros [Hd Hdt] Ht.
  assert (Hq : (0 < inject_Z t)%Q) by (unfold Qlt; simpl; lia).
  split.
  - apply Qle_shift_div_l; [exact Hq|]. rewrite Qmult_0_l.
    unfold Qle; simpl; lia.
  - apply Qle_shift_div_r; [exact Hq|]. rewrite Qmult_1_l.
    unfold Qle; simpl; lia.
Qed.

(** C5.  When at most one active booking of a house adds days in the
    window (whatever its length: a stay is clamped to the window), the
    usageRate of that house lies in [0, 1].  With several active bookings
    of one house the sum is not capped: five seven-night stays in January
    2026 give 35 days against 31 and a usageRate above 1. *)
Theorem usageRate_unit_interval_single_booking
    (tz : Z -> Z) (now : Clock) (hs : list House) (bs : list Booking)
    (i : nat) (h : House) :
  hs !! i = Some h ->
  (length (contributing tz (getPreviousMonthWindow tz now) (id h) bs) <= 1)%nat ->
  (exists r,
     rowsOf (GET tz now (store hs bs)) !! i = Some r
     /\ (0 <= usageRate r <= 1)%Q)
  /\ (exists r',
        rowsOf (GET utc february2026 (store scenarioHouses crowdedBookings))
          !! 0%nat = Some r'
        /\ Forall (fun b => status b = active /\ house_id b = 1
                            /\ end_date b - start_date b = 7) crowdedBookings
        /\ rowTotalDays r' < daysWithBookings r'
        /\ (1 < usageRate r')%Q).
Proof.
  intros Hi Hone. split.
  - rewrite GET_store. cbv zeta. cbn [rowsOf].
    set (w := getPreviousMonthWindow tz now) in *.
    eexists. split; [apply (buildRows_lookup _ _ _ _ _ _ Hi)|].
    cbn [usageRate]. rewrite aggregateUsage_lookup.
    assert (Hlen : (length (List.filter
                              (fun row => ((house_id row =? id h)
                                 && (0 <? daysOf tz (monthStart w) (monthEnd w) row))%Z)
                              (bookingRows tz now bs)) <= 1)%nat).
    { etransitivity; [|exact Hone]. unfold bookingRows, contributing.
      apply filter_filter_length. intros x Hf Hg. unfold touching in Hf.
      apply andb_prop in Hg as [Hk Hd].
      apply andb_prop in Hf as [Hf _]. apply andb_prop in Hf as [Ha _].
      now rewrite Hk, Ha, Hd. }
    destruct (houseDays_single tz _ _ _ _ Hlen) as [Hz|[Hpos Hle]].
    + rewrite Hz. destruct (totalDays w >? 0).
      * unfold Qdiv. rewrite Qmult_0_l. split; [apply Qle_refl|discriminate].
      * split; [apply Qle_refl|discriminate].
    + pose proof (window_totalDays tz now) as Ht. fold w in Ht.
      rewrite <- Ht in Hle.
      destruct (Z.gtb_spec (totalDays w) 0); [|lia].
      apply rate_unit_interval; lia.
  - eexists. split; [reflexivity|]. split.
    + repeat constructor.
    + split; reflexivity.
Qed.

Lemma usageRate_unit_interval_single_booking_witness :
  scenarioHouses !! 1%nat = Some {| id := 2; name := "112 Bear Ln" |}
  /\ (length (contributing seasonal (getPreviousMonthWindow seasonal february2026)
                2 scenarioBookings) <= 1)%nat
  /\ exists r,
       rowsOf (GET seasonal february2026 (store scenarioHouses scenarioBookings))
         !! 1%nat = Some r
       /\ (0 <= usageRate r <= 1)%Q.
Proof.
  assert (H : (length (contributing seasonal
                         (getPreviousMonthWindow seasonal february2026)
                         2 scenarioBookings) <= 1)%nat)
    by (vm_compute; constructor).
  split; [reflexivity|]. split; [exact H|].
  exact (proj1 (usageRate_unit_interval_single_booking seasonal february2026
                  scenarioHouses scenarioBookings 1
                  {| id := 2; name := "112 Bear Ln" |} eq_refl H)).
Defined.

(** ** Which bookings are summed *)

Lemma toISODate_localMidnight (tz : Z -> Z) (d : Z) :
  - msPerDay < tz d <= 0 -> toISODate (localMidnight tz d) = d.
Proof.
  intros H. unfold toISODate, localMidnight, msPerDay in *.
  symmetry. apply (Z.div_unique_pos _ _ d (- tz d)); lia.
Qed.


Lemma touching_intersects (ws we : Z) (b : Booking) :
  touching ws we b = is_active (status b) && intersects ws we b.
Proof. unfold touching, intersects. now rewrite andb_assoc. Qed.

Lemma houseDays_expected (tz : Z -> Z) (ws we k : Z) (bs : list Booking) :
  steady tz ->
  houseDays tz (localMidnight tz ws) (localMidnight tz we) k
    (List.filter (touching ws we) bs)
  = expectedDays ws we k bs.
Proof.
  intros Hs. induction bs as [|b bs IH]; [reflexivity|].
  unfold expectedDays in *. simpl. rewrite touching_intersects.
  destruct (is_active (status b) && intersects ws we b) eqn:Ht.
  - rewrite houseDays_cons, IH.
    apply andb_prop in Ht as [-> ->].
    destruct (house_id b =? k); simpl; [|reflexivity].
    unfold daysOf. now rewrite (countOverlapDays_clamp tz _ _ _ _ Hs).
  - rewrite IH. rewrite <- andb_assoc, Ht, andb_false_r. reflexivity.
Qed.

(** Where local time is at or behind UTC the query strings are the window's
    own dates, and each house gets the sum over its active bookings that
    meet the window. *)
Lemma daysWithBookings_sum_behind_utc
    (tz : Z -> Z) (now : Clock) (hs : list House) (bs : list Booking)
    (i : nat) (h : House) :
  steady tz -> (forall d, - msPerDay < tz d <= 0) -> wallClock now ->
  hs !! i = Some h ->
  exists r,
    rowsOf (GET tz now (store hs bs)) !! i = Some r
    /\ daysWithBookings r
       = expectedDays
           (isoDate (fst (lastCompletedMonth now)) (snd (lastCompletedMonth now)) 1)
           (isoDate (getFullYear now) (getMonth now + 1) 1) (id h) bs.
Proof.
  intros Hs Hwest Hclock Hi. rewrite GET_store. cbv zeta. cbn [rowsOf].
  eexists. split; [apply (buildRows_lookup _ _ _ _ _ _ Hi)|].
  cbn [daysWithBookings]. rewrite aggregateUsage_lookup.
  unfold bookingRows. cbv zeta.
  pose proof (previousMonth_bounds tz now Hclock) as Hw. cbv zeta in Hw.
  destruct (lastCompletedMonth now) as [py pm]. destruct Hw as (-> & -> & _).
  rewrite !toISODate_localMidnight by apply Hwest.
  now apply houseDays_expected.
Qed.

(** A cancelled booking changes nothing, whatever its dates. *)
Lemma GET_skips_cancelled
    (tz : Z -> Z) (now : Clock) (hs : list House) (bs1 bs2 : list Booking)
    (b : Booking) :
  status b = cancelled ->
  GET tz now (store hs (bs1 ++ b :: bs2)) = GET tz now (store hs (bs1 ++ bs2)).
Proof.
  intros Hc. rewrite !GET_store. cbv zeta. unfold bookingRows. cbv zeta.
  rewrite !List.filter_app. simpl. unfold touching at 2. rewrite Hc. reflexivity.
Qed.

(** C3, at an input where it fails.  One hour east of UTC the handler's
    [monthEndStr] for January 2026 is "2026-01-31", so an active stay that
    begins on January 31 is not fetched: the record of house 3 shows 0 days
    where the sum over the active bookings meeting the window is 1.  On a
    host at UTC the same input gives 1. *)
Theorem usage_misses_last_day_east_of_utc :
  steady utcPlus1 /\ wallClock february2026
  /\ is_active (status lastDayBooking)
     && intersects (isoDate 2026 1 1) (isoDate 2026 2 1) lastDayBooking = true
  /\ expectedDays (isoDate 2026 1 1) (isoDate 2026 2 1) 3 [lastDayBooking] = 1
  /\ toISODate (monthEnd (getPreviousMonthWindow utcPlus1 february2026))
     = isoDate 2026 1 31
  /\ List.map daysWithBookings
       (rowsOf (GET utcPlus1 february2026 (store scenarioHouses [lastDayBooking])))
     = [0; 0; 0]
  /\ List.map daysWithBookings
       (rowsOf (GET utc february2026 (store scenarioHouses [lastDayBooking])))
     = [0; 0; 1].
Proof.
  split; [exact steady_utcPlus1|]. split; [exact wallClock_2026_02|].
  repeat split; vm_compute; reflexivity.
Qed.

(** ** The default window *)




(** Outside those conditions the window is another one.  In Pacific/Apia
    the window computed in January 2012 has totalDays 30 (December 2011
    had thirty days there), and a clock reading the year 100 in January
    gets the window of December 1999, labelled 99-12. *)
Example window_of_december_2011_in_apia :
  wallClock january2012
  /\ totalDays (getPreviousMonthWindow apia january2012) = 30
  /\ daysInMonth 2011 12 = 31.
Proof. split; [exact wallClock_2012_01|]. split; vm_compute; reflexivity. Qed.

Example window_of_a_two_digit_year :
  let w := getPreviousMonthWindow utc {| getFullYear := 100; getMonth := 0 |} in
  monthStart w = localMidnight utc (isoDate 1999 12 1)
  /\ monthEnd w = localMidnight utc (isoDate 2000 1 1)
  /\ label w = "99-12".
Proof. cbv zeta. repeat split; vm_compute; reflexivity. Qed.


(** ** Booking creation *)

Ltac settle_outcome :=
  repeat split; intros;
  try discriminate; try lia; try congruence;
  try (left; reflexivity); try (right; left; reflexivity);
  try (right; right; eexists; reflexivity); try (eexists; reflexivity).

(** C8, in a steady time zone.  On a host whose zone is steady, for a
    requested range [pStart, pEnd) on a selected house, with
    nights = pEnd - pStart: an insert is issued only when 1 <= nights <= 7,
    and it carries the requested dates; when nights <= 0 or nights > 7 the
    run ends without an insert, and for a signed-in user whose request is
    not already being saved it ends with an error message; once the guest
    count is accepted the message is "Invalid date range." for nights <= 0
    and "Max stay is 7 nights." for nights > 7, and 1 <= nights <= 7 leads
    to the insert. *)
Theorem confirmCreateBooking_enforces_stay_length
    (tz : Z -> Z) (Number_ : string -> option Q) (trim : string -> string)
    (page : CalendarPage) (user : option User) (houseId pStart pEnd : Z) :
  steady tz ->
  selectedHouseId page = Some houseId ->
  pendingStart page = Some pStart ->
  pendingEnd page = Some pEnd ->
  let nights := pEnd - pStart in
  let outcome := confirmCreateBooking tz Number_ trim page user in
  (forall row, outcome = Insert row ->
     1 <= nights <= 7
     /\ ins_house_id row = houseId /\ ins_start_date row = pStart
     /\ ins_end_date row = pEnd /\ ins_status row = active)
  /\ (nights <= 0 \/ 7 < nights ->
      outcome = Skipped \/ outcome = ToLogin \/ exists msg, outcome = Rejected msg)
  /\ (nights <= 0 \/ 7 < nights ->
      houseId <> 0 -> saving page = false -> user <> None ->
      exists msg, outcome = Rejected msg)
  /\ (forall u g,
        houseId <> 0 -> saving page = false -> user = Some u ->
        Number_ (guestCountInput page) = Some g -> (1 <= g)%Q ->
        (nights <= 0 -> outcome = Rejected "Invalid date range.")
        /\ (7 < nights -> outcome = Rejected "Max stay is 7 nights.")
        /\ (1 <= nights <= 7 -> exists row, outcome = Insert row)).
Proof.
  intros Hs Hh Hps Hpe nights outcome. subst outcome.
  unfold confirmCreateBooking. rewrite Hh, Hps, Hpe. cbv zeta.
  rewrite (roundDays_midnights tz pStart pEnd Hs). fold nights.
  destruct (Z.eqb_spec houseId 0) as [E0|N0]; [settle_outcome|].
  destruct (saving page) eqn:Esav; [settle_outcome|].
  destruct user as [u|]; [|settle_outcome].
  destruct (Number_ (guestCountInput page)) as [g|] eqn:Eg; [|settle_outcome].
  destruct (Qlt_le_dec g 1) as [Hlt|Hge].
  { settle_outcome.
    all: match goal with H : Some _ = Some _ |- _ => injection H as <- end.
    all: exfalso; eapply Qlt_not_le; eassumption. }
  destruct (Z.leb_spec nights 0) as [Hle|Hpos]; [settle_outcome|].
  destruct (Z.gtb_spec nights 7) as [Hgt|Hok]; [settle_outcome|].
  settle_outcome.
  all: match goal with H : Insert _ = Insert _ |- _ => injection H as <- end.
  all: reflexivity.
Qed.

Lemma confirmCreateBooking_enforces_stay_length_witness :
  steady seasonal
  /\ selectedHouseId tenNights = Some 1
  /\ pendingStart tenNights = Some (isoDate 2026 1 10)
  /\ pendingEnd tenNights = Some (isoDate 2026 1 20)
  /\ 7 < isoDate 2026 1 20 - isoDate 2026 1 10
  /\ confirmCreateBooking seasonal numberOfDefault (fun s => s) tenNights
       (Some someUser)
     = Rejected "Max stay is 7 nights.".
Proof.
  assert (Hn : 7 < isoDate 2026 1 20 - isoDate 2026 1 10) by reflexivity.
  assert (Hg : (1 <= 2)%Q) by discriminate.
  split; [exact steady_seasonal|]. do 3 (split; [reflexivity|]).
  split; [exact Hn|].
  pose proof (confirmCreateBooking_enforces_stay_length seasonal numberOfDefault
                (fun s => s) tenNights (Some someUser) 1
                (isoDate 2026 1 10) (isoDate 2026 1 20)
                steady_seasonal eq_refl eq_refl eq_refl) as H.
  cbv zeta in H. destruct H as (_ & _ & _ & H).
  destruct (H someUser 2%Q ltac:(discriminate) eq_refl eq_refl eq_refl Hg)
    as (_ & Hmax & _).
  exact (Hmax Hn).
Defined.

(** C8, as stated for every host, fails where the zone moved across the
    date line.  In Pacific/Apia a signed-in user's request from 2011-12-26
    to 2012-01-03 is inserted as it stands: end_date - start_date is 8,
    above the cap of 7 (the page counts 7 nights, 2011-12-30 having been
    skipped there). *)
Lemma eight_day_range_inserted_in_apia :
  exists row,
    confirmCreateBooking apia numberOfDefault (fun s => s) overNewYear2012
      (Some someUser)
    = Insert row
    /\ ins_start_date row = isoDate 2011 12 26
    /\ ins_end_date row = isoDate 2012 1 3
    /\ ins_end_date row - ins_start_date row = 8.
Proof.
  eexists. split; [vm_compute; reflexivity|].
  cbn [ins_start_date ins_end_date]. repeat split; vm_compute; reflexivity.
Qed.

(** ** More on the window and the overlap *)

Lemma daysInMonth_bounds (y m : Z) : 28 <= daysInMonth y m <= 31.
Proof.
  unfold daysInMonth.
  destruct (m =? 2); [destruct (isLeapYear y); lia|].
  destruct ((m =? 4) || (m =? 6) || (m =? 9) || (m =? 11)); lia.
Qed.

Lemma wallClock_nextMonth (now : Clock) : wallClock now -> wallClock (nextMonth now).
Proof.
  intros [Hm Hy]. unfold nextMonth, wallClock.
  destruct (Z.eqb_spec (getMonth now) 11); simpl; lia.
Qed.

Lemma monthStart_nextMonth (tz : Z -> Z) (now : Clock) :
  wallClock now ->
  monthStart (getPreviousMonthWindow tz (nextMonth now))
  = monthEnd (getPreviousMonthWindow tz now).
Proof.
  intros Hc.
  pose proof (previousMonth_bounds tz now Hc) as H1.
  pose proof (previousMonth_bounds tz _ (wallClock_nextMonth now Hc)) as H2.
  cbv zeta in H1, H2.
  destruct (lastCompletedMonth now) as [py pm].
  destruct H1 as (_ & -> & _).
  destruct (lastCompletedMonth (nextMonth now)) as [qy qm] eqn:Hq.
  destruct H2 as (-> & _ & _).
  destruct Hc as [Hm Hy]. unfold lastCompletedMonth, nextMonth in Hq.
  destruct (Z.eqb_spec (getMonth now) 11) as [E|E]; cbn [getMonth getFullYear] in Hq.
  - change (0 =? 0) with true in Hq. cbv iota in Hq.
    injection Hq as <- <-. rewrite E.
    replace (getFullYear now + 1 - 1) with (getFullYear now) by lia.
    reflexivity.
  - destruct (Z.eqb_spec (getMonth now + 1) 0); [lia|].
    injection Hq as <- <-. reflexivity.
Qed.

(** X1.  The windows of consecutive months tile the calendar: the window
    computed one month later starts at the instant where this one ends. *)
Theorem consecutive_windows_tile (tz : Z -> Z) (now : Clock) :
  wallClock now ->
  monthStart (getPreviousMonthWindow tz (nextMonth now))
  = monthEnd (getPreviousMonthWindow tz now).
Proof. intros Hc. now apply monthStart_nextMonth. Qed.

Lemma consecutive_windows_tile_witness :
  wallClock {| getFullYear := 2025; getMonth := 11 |}
  /\ monthStart (getPreviousMonthWindow seasonal
                   (nextMonth {| getFullYear := 2025; getMonth := 11 |}))
     = monthEnd (getPreviousMonthWindow seasonal
                   {| getFullYear := 2025; getMonth := 11 |}).
Proof.
  assert (H : wallClock {| getFullYear := 2025; getMonth := 11 |})
    by (unfold wallClock; simpl; lia).
  split; [exact H|].
  exact (consecutive_windows_tile seasonal _ H).
Defined.

Lemma GET_rows_built (tz : Z -> Z) (now : Clock) (db : Supabase) :
  let w := getPreviousMonthWindow tz now in
  exists hs rows,
    rowsOf (GET tz now db)
    = buildRows (label w) (totalDays w)
        (aggregateUsage tz (monthStart w) (monthEnd w) rows) hs.
Proof.
  cbv zeta. unfold GET, selectBookings, select. cbv zeta.
  destruct (housesFault db); [exists [], []; reflexivity|].
  destruct (bookingsFault db); [exists [], []; reflexivity|].
  eexists _, _. reflexivity.
Qed.

(** X2.  For a real clock in a steady zone totalDays is between 28 and 31,
    so the zero-divisor branch is never taken: every record's usageRate is
    the quotient daysWithBookings / totalDays. *)
Theorem totalDays_is_a_month_length
    (tz : Z -> Z) (now : Clock) (db : Supabase) (r : UsageRow) :
  steady tz -> wallClock now ->
  In r (rowsOf (GET tz now db)) ->
  28 <= totalDays (getPreviousMonthWindow tz now) <= 31
  /\ rowTotalDays r = totalDays (getPreviousMonthWindow tz now)
  /\ usageRate r
     = (inject_Z (daysWithBookings r) / inject_Z (rowTotalDays r))%Q.
Proof.
  intros Hs Hc Hin.
  assert (Hb : 28 <= totalDays (getPreviousMonthWindow tz now) <= 31).
  { pose proof (previousMonth_bounds tz now Hc) as Hw. cbv zeta in Hw.
    destruct (lastCompletedMonth now) as [py pm].
    destruct Hw as (Hstart & Hend & Hlen).
    rewrite window_totalDays, Hstart, Hend, (roundDays_midnights tz _ _ Hs), Hlen.
    apply daysInMonth_bounds. }
  split; [exact Hb|].
  destruct (GET_rows_built tz now db) as (hs & rows & Hrows).
  rewrite Hrows in Hin. unfold buildRows in Hin.
  apply in_map_iff in Hin as (h & <- & _).
  cbn [rowTotalDays usageRate daysWithBookings].
  split; [reflexivity|].
  destruct (Z.gtb_spec (totalDays (getPreviousMonthWindow tz now)) 0);
    [reflexivity|lia].
Qed.

Lemma totalDays_is_a_month_length_witness :
  steady seasonal /\ wallClock february2026
  /\ 28 <= totalDays (getPreviousMonthWindow seasonal february2026) <= 31.
Proof.
  split; [exact steady_seasonal|]. split; [exact wallClock_2026_02|].
  assert (Hin : In {| houseId := 1; houseName := "156 Bay Ave";
                      month := "2026-01"; daysWithBookings := 11;
                      rowTotalDays := 31; usageRate := (11 # 31)%Q |}
                  (rowsOf (GET seasonal february2026
                             (store scenarioHouses scenarioBookings))))
    by (left; reflexivity).
  exact (proj1 (totalDays_is_a_month_length seasonal february2026 _ _
                  steady_seasonal wallClock_2026_02 Hin)).
Defined.

(** X3.  Overlap days add up over adjoining windows: for day windows
    [a, b) and [b, c) with a <= b <= c the two counts sum to the count
    against [a, c); in particular the counts of one booking in the reports
    of two consecutive months sum to its overlap with the two months. *)
Theorem countOverlapDays_splits_over_windows
    (tz : Z -> Z) (startDate endDate a b c : Z) (now : Clock) :
  steady tz -> a <= b <= c -> wallClock now ->
  countOverlapDays tz startDate endDate (localMidnight tz a) (localMidnight tz b)
  + countOverlapDays tz startDate endDate (localMidnight tz b) (localMidnight tz c)
  = countOverlapDays tz startDate endDate (localMidnight tz a) (localMidnight tz c)
  /\ (let w1 := getPreviousMonthWindow tz now in
      let w2 := getPreviousMonthWindow tz (nextMonth now) in
      countOverlapDays tz startDate endDate (monthStart w1) (monthEnd w1)
      + countOverlapDays tz startDate endDate (monthStart w2) (monthEnd w2)
      = countOverlapDays tz startDate endDate (monthStart w1) (monthEnd w2)).
Proof.
  intros Hs Habc Hc.
  assert (Hsplit : forall x y z, x <= y <= z ->
            countOverlapDays tz startDate endDate
              (localMidnight tz x) (localMidnight tz y)
            + countOverlapDays tz startDate endDate
                (localMidnight tz y) (localMidnight tz z)
            = countOverlapDays tz startDate endDate
                (localMidnight tz x) (localMidnight tz z)).
  { intros x y z Hxyz. rewrite !(countOverlapDays_clamp tz _ _ _ _ Hs).
    unfold overlapDays. lia. }
  split; [now apply Hsplit|]. cbv zeta.
  pose proof (previousMonth_bounds tz now Hc) as H1.
  pose proof (previousMonth_bounds tz _ (wallClock_nextMonth now Hc)) as H2.
  pose proof (monthStart_nextMonth tz now Hc) as Htile.
  cbv zeta in H1, H2.
  destruct (lastCompletedMonth now) as [py pm].
  destruct (lastCompletedMonth (nextMonth now)) as [qy qm].
  destruct H1 as (E1 & E2 & L1). destruct H2 as (F1 & F2 & L2).
  rewrite Htile, E1, E2, F2.
  rewrite Htile, E2 in F1.
  assert (Heq : isoDate (getFullYear now) (getMonth now + 1) 1 = isoDate qy qm 1).
  { pose proof (localMidnight_lt tz (isoDate (getFullYear now) (getMonth now + 1) 1)
                  (isoDate qy qm 1) Hs) as A.
    pose proof (localMidnight_lt tz (isoDate qy qm 1)
                  (isoDate (getFullYear now) (getMonth now + 1) 1) Hs) as B.
    lia. }
  apply Hsplit.
  pose proof (daysInMonth_bounds py pm). pose proof (daysInMonth_bounds qy qm).
  lia.
Qed.

Lemma countOverlapDays_splits_over_windows_witness :
  steady seasonal
  /\ isoDate 2026 1 1 <= isoDate 2026 2 1 <= isoDate 2026 3 1
  /\ wallClock february2026
  /\ countOverlapDays seasonal (isoDate 2026 1 30) (isoDate 2026 2 2)
       (localMidnight seasonal (isoDate 2026 1 1))
       (localMidnight seasonal (isoDate 2026 2 1))
     + countOverlapDays seasonal (isoDate 2026 1 30) (isoDate 2026 2 2)
         (localMidnight seasonal (isoDate 2026 2 1))
         (localMidnight seasonal (isoDate 2026 3 1))
     = countOverlapDays seasonal (isoDate 2026 1 30) (isoDate 2026 2 2)
         (localMidnight seasonal (isoDate 2026 1 1))
         (localMidnight seasonal (isoDate 2026 3 1)).
Proof.
  assert (H : isoDate 2026 1 1 <= isoDate 2026 2 1 <= isoDate 2026 3 1)
    by (split; vm_compute; discriminate).
  split; [exact steady_seasonal|]. split; [exact H|].
  split; [exact wallClock_2026_02|].
  exact (proj1 (countOverlapDays_splits_over_windows seasonal
                  (isoDate 2026 1 30) (isoDate 2026 2 2)
                  (isoDate 2026 1 1) (isoDate 2026 2 1) (isoDate 2026 3 1)
                  february2026 steady_seasonal H wallClock_2026_02)).
Defined.

Lemma overlap_le_duration
    (tz : Z -> Z) (startDate endDate : Z) (winStart winEnd : Z) :
  steady tz -> startDate <= endDate ->
  countOverlapDays tz startDate endDate winStart winEnd <= endDate - startDate.
Proof.
  intros Hs Hwf. unfold countOverlapDays. cbv zeta.
  pose proof (proj2 (localMidnight_le tz startDate endDate Hs) Hwf) as Hle.
  rewrite <- (roundDays_midnights tz startDate endDate Hs).
  assert (H0 : 0 <= roundDays (localMidnight tz endDate - localMidnight tz startDate)).
  { rewrite (roundDays_midnights tz startDate endDate Hs). lia. }
  destruct (Z.ltb_spec (localMidnight tz startDate) winStart);
    destruct (Z.gtb_spec (localMidnight tz endDate) winEnd);
    match goal with |- context [?ms <=? 0] => destruct (Z.leb_spec ms 0) end;
    try exact H0; apply roundDays_mono; lia.
Qed.

(** X4.  In a steady time zone a booking with start_date <= end_date never
    counts for more days than it lasts, whatever the window, and never for
    more than the rounded length of the window. *)
Theorem countOverlapDays_at_most_duration
    (tz : Z -> Z) (startDate endDate : Z) (winStart winEnd : Z) :
  steady tz -> startDate <= endDate ->
  countOverlapDays tz startDate endDate winStart winEnd <= endDate - startDate
  /\ countOverlapDays tz startDate endDate winStart winEnd
     <= Z.max 0 (roundDays (winEnd - winStart)).
Proof.
  intros Hs Hwf. split; [now apply overlap_le_duration|].
  pose proof (countOverlapDays_nonneg tz startDate endDate winStart winEnd) as Hn.
  destruct (Z_le_gt_dec (countOverlapDays tz startDate endDate winStart winEnd) 0)
    as [Hz|Hpos]; [lia|].
  pose proof (countOverlapDays_le_window tz startDate endDate winStart winEnd) as H.
  lia.
Qed.

Lemma countOverlapDays_at_most_duration_witness :
  steady seasonal
  /\ isoDate 2025 12 28 <= isoDate 2026 1 3
  /\ countOverlapDays seasonal (isoDate 2025 12 28) (isoDate 2026 1 3)
       (localMidnight seasonal (isoDate 2026 1 1))
       (localMidnight seasonal (isoDate 2026 2 1))
     <= isoDate 2026 1 3 - isoDate 2025 12 28.
Proof.
  assert (H : isoDate 2025 12 28 <= isoDate 2026 1 3) by (vm_compute; discriminate).
  split; [exact steady_seasonal|]. split; [exact H|].
  exact (proj1 (countOverlapDays_at_most_duration seasonal _ _ _ _
                  steady_seasonal H)).
Defined.

(** The zone condition is needed: where a day is repeated the booking from
    1969-09-30 to 1969-10-02 counts for 3 days against a window that holds
    it, one more than it lasts. *)
Example countOverlapDays_over_a_repeated_day :
  countOverlapDays kwajalein (isoDate 1969 9 30) (isoDate 1969 10 2)
    (localMidnight kwajalein (isoDate 1969 9 1))
    (localMidnight kwajalein (isoDate 1969 11 1)) = 3
  /\ isoDate 1969 10 2 - isoDate 1969 9 30 = 2.
Proof. split; vm_compute; reflexivity. Qed.

(** ** More on the response *)

Lemma rate_nonneg (d t : Z) :
  0 <= d ->
  (0 <= (if t >? 0 then inject_Z d / inject_Z t else 0))%Q.
Proof.
  intros Hd. destruct (Z.gtb_spec t 0) as [Hpos|]; [|apply Qle_refl].
  apply Qle_shift_div_l; [unfold Qlt; simpl; lia|].
  rewrite Qmult_0_l. unfold Qle; simpl; lia.
Qed.

(** X5.  Every record of every response, whatever the store holds, has
    daysWithBookings >= 0 and usageRate >= 0, and repeats the label and
    totalDays of the window. *)
Theorem GET_records_are_nonnegative
    (tz : Z -> Z) (now : Clock) (db : Supabase) (r : UsageRow) :
  In r (rowsOf (GET tz now db)) ->
  0 <= daysWithBookings r
  /\ (0 <= usageRate r)%Q
  /\ month r = label (getPreviousMonthWindow tz now)
  /\ rowTotalDays r = totalDays (getPreviousMonthWindow tz now).
Proof.
  intros Hin. destruct (GET_rows_built tz now db) as (hs & rows & Hrows).
  rewrite Hrows in Hin. unfold buildRows in Hin.
  apply in_map_iff in Hin as (h & <- & _).
  cbn [daysWithBookings usageRate month rowTotalDays].
  rewrite aggregateUsage_lookup.
  pose proof (houseDays_nonneg tz (monthStart (getPreviousMonthWindow tz now))
                (monthEnd (getPreviousMonthWindow tz now)) (id h) rows) as Hn.
  split; [exact Hn|]. split; [|split; reflexivity].
  now apply rate_nonneg.
Qed.

Lemma GET_records_are_nonnegative_witness :
  In {| houseId := 2; houseName := "112 Bear Ln"; month := "2026-01";
        daysWithBookings := 2; rowTotalDays := 31; usageRate := (2 # 31)%Q |}
     (rowsOf (GET seasonal february2026 (store scenarioHouses scenarioBookings)))
  /\ (0 <= (2 # 31))%Q.
Proof.
  assert (Hin : In {| houseId := 2; houseName := "112 Bear Ln";
                      month := "2026-01"; daysWithBookings := 2;
                      rowTotalDays := 31; usageRate := (2 # 31)%Q |}
                  (rowsOf (GET seasonal february2026
                             (store scenarioHouses scenarioBookings))))
    by (right; left; reflexivity).
  split; [exact Hin|].
  exact (proj1 (proj2 (GET_records_are_nonnegative seasonal february2026 _ _ Hin))).
Defined.

Lemma houseDays_insert (tz : Z -> Z) (wS wE k : Z) (q : Booking -> bool)
    (bs1 bs2 : list Booking) (b : Booking) :
  houseDays tz wS wE k (List.filter q (bs1 ++ b :: bs2))
  = houseDays tz wS wE k (List.filter q (bs1 ++ bs2))
    + (if q b && (house_id b =? k) then daysOf tz wS wE b else 0).
Proof.
  rewrite !List.filter_app, !houseDays_app. simpl.
  destruct (q b); simpl; [|lia].
  rewrite houseDays_cons. destruct (house_id b =? k); lia.
Qed.

(** X6.  One more booking in the table never lowers a house's
    daysWithBookings and raises it by at most that booking's days in the
    window; a booking of another house, or a cancelled one, leaves the
    record as it was. *)
Theorem GET_grows_with_bookings
    (tz : Z -> Z) (now : Clock) (hs : list House) (bs1 bs2 : list Booking)
    (b : Booking) (i : nat) (h : House) :
  hs !! i = Some h ->
  let w := getPreviousMonthWindow tz now in
  exists r r',
    rowsOf (GET tz now (store hs (bs1 ++ bs2))) !! i = Some r
    /\ rowsOf (GET tz now (store hs (bs1 ++ b :: bs2))) !! i = Some r'
    /\ daysWithBookings r <= daysWithBookings r'
    /\ daysWithBookings r'
       <= daysWithBookings r + daysOf tz (monthStart w) (monthEnd w) b
    /\ (house_id b <> id h \/ status b = cancelled -> r' = r).
Proof.
  intros Hi w. rewrite !GET_store. fold w. cbn [rowsOf].
  eexists _, _.
  split; [apply (buildRows_lookup _ _ _ _ _ _ Hi)|].
  split; [apply (buildRows_lookup _ _ _ _ _ _ Hi)|].
  cbn [daysWithBookings]. rewrite !aggregateUsage_lookup.
  unfold bookingRows. fold w. rewrite houseDays_insert.
  pose proof (daysOf_nonneg tz (monthStart w) (monthEnd w) b) as Hn.
  split; [|split].
  - destruct (_ && _); lia.
  - destruct (_ && _); lia.
  - intros [Hother|Hcancel].
    + destruct (Z.eqb_spec (house_id b) (id h)) as [E|_]; [contradiction|].
      rewrite !andb_false_r, !Z.add_0_r. reflexivity.
    + assert (Ht : touching (toISODate (monthStart w)) (toISODate (monthEnd w)) b
                   = false) by (unfold touching; rewrite Hcancel; reflexivity).
      rewrite Ht. cbn [andb]. rewrite !Z.add_0_r. reflexivity.
Qed.

Lemma GET_grows_with_bookings_witness :
  scenarioHouses !! 0%nat = Some {| id := 1; name := "156 Bay Ave" |}
  /\ exists r r',
       rowsOf (GET seasonal february2026
                 (store scenarioHouses ([] ++ scenarioBookings))) !! 0%nat = Some r
       /\ rowsOf (GET seasonal february2026
                    (store scenarioHouses ([] ++ strayBooking :: scenarioBookings)))
            !! 0%nat = Some r'
       /\ r' = r.
Proof.
  split; [reflexivity|].
  destruct (GET_grows_with_bookings seasonal february2026 scenarioHouses []
              scenarioBookings strayBooking 0
              {| id := 1; name := "156 Bay Ave" |} eq_refl)
    as (r & r' & Hr & Hr' & _ & _ & Hsame).
  exists r, r'. split; [exact Hr|]. split; [exact Hr'|].
  apply Hsame. left. discriminate.
Defined.

(** X7.  The handler answers 500 exactly when a query fails, with that
    query's message, the houses query first; otherwise it answers 200. *)
Theorem GET_fails_only_with_the_store
    (tz : Z -> Z) (now : Clock) (db : Supabase) (message : string) :
  (GET tz now db = Json500 message
   <-> housesFault db = Some message
       \/ (housesFault db = None /\ bookingsFault db = Some message))
  /\ (housesFault db = None -> bookingsFault db = None ->
      exists rows,
        GET tz now db
        = Json200 (label (getPreviousMonthWindow tz now))
            (totalDays (getPreviousMonthWindow tz now)) rows
        /\ length rows = length (houses db)).
Proof.
  unfold GET, selectBookings, select. cbv zeta.
  destruct (housesFault db) as [m1|]; cbn [error data].
  - split.
    + split.
      * intros H. left. congruence.
      * intros [H|[H _]]; congruence.
    + discriminate.
  - destruct (bookingsFault db) as [m2|]; cbn [error data].
    + split.
      * split.
        -- intros H. right. split; [reflexivity|congruence].
        -- intros [H|[_ H]]; congruence.
      * discriminate.
    + split.
      * split; [discriminate|]. intros [H|[_ H]]; discriminate.
      * intros _ _. eexists. split; [reflexivity|]. apply buildRows_length.
Qed.

Lemma GET_fails_only_with_the_store_witness :
  GET utc february2026
    {| houses := scenarioHouses; bookings := scenarioBookings;
       housesFault := Some "timeout"; bookingsFault := Some "permission denied" |}
  = Json500 "timeout".
Proof.
  apply (proj2 (proj1 (GET_fails_only_with_the_store utc february2026
                         {| houses := scenarioHouses;
                            bookings := scenarioBookings;
                            housesFault := Some "timeout";
                            bookingsFault := Some "permission denied" |}
                         "timeout"))).
  left. reflexivity.
Defined.

(** ** What booking creation hands to the store *)

Lemma confirmCreateBooking_insert_inv
    (tz : Z -> Z) (Number_ : string -> option Q) (trim : string -> string)
    (page : CalendarPage) (user : option User) (row : BookingInsert) :
  confirmCreateBooking tz Number_ trim page user = Insert row ->
  exists u pStart pEnd,
    user = Some u
    /\ selectedHouseId page = Some (ins_house_id row)
    /\ ins_house_id row <> 0
    /\ saving page = false
    /\ pendingStart page = Some pStart /\ pendingEnd page = Some pEnd
    /\ ins_start_date row = pStart /\ ins_end_date row = pEnd
    /\ Number_ (guestCountInput page) = Some (ins_guest_count row)
    /\ (1 <= ins_guest_count row)%Q
    /\ ins_created_by row = user_id u
    /\ ins_status row = active
    /\ ins_note row
       = (if String.eqb (trim (noteInput page)) "" then None
          else Some (trim (noteInput page)))
    /\ 1 <= roundDays (localMidnight tz pEnd - localMidnight tz pStart) <= 7.
Proof.
  unfold confirmCreateBooking. cbv zeta.
  destruct (selectedHouseId page) as [houseId|]; [|discriminate].
  destruct (pendingStart page) as [pStart|]; [|discriminate].
  destruct (pendingEnd page) as [pEnd|]; [|discriminate].
  destruct (Z.eqb_spec houseId 0); [discriminate|].
  destruct (saving page); [discriminate|].
  destruct user as [u|]; [|discriminate].
  destruct (Number_ (guestCountInput page)) as [g|]; [|discriminate].
  destruct (Qlt_le_dec g 1); [discriminate|].
  destruct (Z.leb_spec (roundDays (localMidnight tz pEnd - localMidnight tz pStart)) 0);
    [discriminate|].
  destruct (Z.gtb_spec (roundDays (localMidnight tz pEnd - localMidnight tz pStart)) 7);
    [discriminate|].
  intros Hrow. injection Hrow as <-. exists u, pStart, pEnd. cbn.
  repeat (split; [first [reflexivity|assumption]|]). lia.
Qed.

(** X8.  Every row handed to the insert is well formed beyond its dates:
    the guest count is the number typed and at least 1, the status is
    active, the creator is the signed-in user, the house is the selected one
    (never id 0), and a blank note is stored as null, never as an empty
    string. *)
Theorem confirmCreateBooking_inserts_well_formed_rows
    (tz : Z -> Z) (Number_ : string -> option Q) (trim : string -> string)
    (page : CalendarPage) (user : option User) (row : BookingInsert) :
  confirmCreateBooking tz Number_ trim page user = Insert row ->
  (1 <= ins_guest_count row)%Q
  /\ Number_ (guestCountInput page) = Some (ins_guest_count row)
  /\ ins_status row = active
  /\ (exists u, user = Some u /\ ins_created_by row = user_id u)
  /\ selectedHouseId page = Some (ins_house_id row)
  /\ ins_house_id row <> 0
  /\ ins_note row <> Some "".
Proof.
  intros H. apply confirmCreateBooking_insert_inv in H
    as (u & pStart & pEnd & Hu & Hh & Hh0 & _ & _ & _ & _ & _ & Hg & Hg1
        & Hc & Hs & Hn & _).
  split; [exact Hg1|]. split; [exact Hg|]. split; [exact Hs|].
  split; [now exists u|]. split; [exact Hh|]. split; [exact Hh0|].
  rewrite Hn. destruct (String.eqb_spec (trim (noteInput page)) ""); congruence.
Qed.


Lemma fiveNights_inserted :
  confirmCreateBooking seasonal numberOfDefault (fun s => s) fiveNights
    (Some someUser)
  = Insert fiveNightsRow.
Proof. vm_compute. reflexivity. Defined.

Lemma confirmCreateBooking_inserts_well_formed_rows_witness :
  confirmCreateBooking seasonal numberOfDefault (fun s => s) fiveNights
    (Some someUser)
  = Insert fiveNightsRow
  /\ (1 <= ins_guest_count fiveNightsRow)%Q
  /\ ins_note fiveNightsRow <> Some "".
Proof.
  split; [exact fiveNights_inserted|].
  destruct (confirmCreateBooking_inserts_well_formed_rows seasonal
              numberOfDefault (fun s => s) fiveNights (Some someUser)
              fiveNightsRow fiveNights_inserted)
    as (Hg & _ & _ & _ & _ & _ & Hn).
  split; [exact Hg|exact Hn].
Defined.


(** ** Dates shown to people *)

Example formatDate_example :
  formatDate utcPlus1 (fixedAt 3600000) (isoDate 2026 1 5) = "01/05/2026".
Proof. vm_compute. reflexivity. Qed.

(** In Pacific/Apia the skipped day 2011-12-30 is shown as the day after
    it, so two dates share a rendering there. *)
Example formatDate_on_the_skipped_day :
  formatDate apia apiaAt (isoDate 2011 12 29) = "12/29/2011"
  /\ formatDate apia apiaAt (isoDate 2011 12 30) = "12/31/2011"
  /\ formatDate apia apiaAt (isoDate 2011 12 31) = "12/31/2011"
  /\ ~ midnightOnItsDay apia apiaAt (isoDate 2011 12 30).
Proof.
  split; [vm_compute; reflexivity|]. split; [vm_compute; reflexivity|].
  split; [vm_compute; reflexivity|].
  unfold midnightOnItsDay. vm_compute. intros [_ H]. discriminate H.
Qed.

Lemma yearOfEra_recovered (yoe doy : Z) :
  0 <= yoe <= 399 ->
  0 <= doy <= 364 + (if ((yoe + 1) mod 4 =? 0)
                        && (negb ((yoe + 1) mod 100 =? 0) || (yoe + 1 =? 400))
                     then 1 else 0) ->
  let doe := yoe * 365 + yoe / 4 - yoe / 100 + doy in
  0 <= doe <= 146096
  /\ (doe - doe / 1460 + doe / 36524 - doe / 146096) / 365 = yoe.
Proof.
  intros Hy Hd. cbv zeta.
  destruct (Z.eqb_spec ((yoe + 1) mod 4) 0);
    destruct (Z.eqb_spec ((yoe + 1) mod 100) 0);
    destruct (Z.eqb_spec (yoe + 1) 400); cbn [andb orb negb] in Hd;
    Z.div_mod_to_equations; lia.
Qed.

Lemma dayOfYear_recovered (mp d : Z) :
  0 <= mp <= 11 ->
  1 <= d <= (if mp =? 11 then 29
             else if (mp =? 1) || (mp =? 3) || (mp =? 6) || (mp =? 8) then 30
             else 31) ->
  let doy := (153 * mp + 2) / 5 + d - 1 in
  (5 * doy + 2) / 153 = mp
  /\ doy - (153 * mp + 2) / 5 + 1 = d
  /\ 0 <= doy <= 365
  /\ (doy = 365 -> mp = 11 /\ d = 29).
Proof.
  intros Hm Hd. cbv zeta.
  assert (Hc : mp = 0 \/ mp = 1 \/ mp = 2 \/ mp = 3 \/ mp = 4 \/ mp = 5
               \/ mp = 6 \/ mp = 7 \/ mp = 8 \/ mp = 9 \/ mp = 10 \/ mp = 11) by lia.
  repeat (destruct Hc as [->|Hc]); try subst mp; cbn [Z.eqb Pos.eqb orb] in Hd;
    eval_day_of_year; repeat split; try lia;
    Z.div_mod_to_equations; lia.
Qed.

Lemma daysInMonth_shifted (y m : Z) :
  1 <= m <= 12 ->
  daysInMonth y m
  <= (let mp := if m >? 2 then m - 3 else m + 9 in
      if mp =? 11 then 29
      else if (mp =? 1) || (mp =? 3) || (mp =? 6) || (mp =? 8) then 30
      else 31).
Proof.
  intros Hm.
  assert (Hc : m = 1 \/ m = 2 \/ m = 3 \/ m = 4 \/ m = 5 \/ m = 6 \/ m = 7
               \/ m = 8 \/ m = 9 \/ m = 10 \/ m = 11 \/ m = 12) by lia.
  unfold daysInMonth.
  repeat (destruct Hc as [->|Hc]); try subst m;
    destruct (isLeapYear y); vm_compute; intros H; discriminate H.
Qed.

Lemma civilFromDays_daysFromCivil (y m d : Z) :
  validDate y m d -> civilFromDays (daysFromCivil y m d) = (y, m, d).
Proof.
  intros [Hm Hd].
  set (y' := if m <=? 2 then y - 1 else y).
  set (mp := if m >? 2 then m - 3 else m + 9).
  set (yoe := y' - y' / 400 * 400).
  set (doy := (153 * mp + 2) / 5 + d - 1).
  assert (Hyoe : 0 <= yoe <= 399) by (subst yoe; Z.div_mod_to_equations; lia).
  assert (Hmp : 0 <= mp <= 11)
    by (subst mp; destruct (Z.gtb_spec m 2); lia).
  assert (Hlen : 1 <= d <= (if mp =? 11 then 29
             else if (mp =? 1) || (mp =? 3) || (mp =? 6) || (mp =? 8) then 30
             else 31)).
  { pose proof (daysInMonth_shifted y m Hm) as Hsh. cbv zeta in Hsh.
    fold mp in Hsh. lia. }
  destruct (dayOfYear_recovered mp d Hmp Hlen) as (Emp & Ed & Hdoy & H365).
  fold doy in Emp, Ed, Hdoy, H365.
  assert (Hleap : 0 <= doy <= 364 + (if ((yoe + 1) mod 4 =? 0)
                        && (negb ((yoe + 1) mod 100 =? 0) || (yoe + 1 =? 400))
                     then 1 else 0)).
  { destruct (Z.eq_dec doy 365) as [E|N]; [|
      destruct (((yoe + 1) mod 4 =? 0)
                && (negb ((yoe + 1) mod 100 =? 0) || (yoe + 1 =? 400))); lia].
    destruct (H365 E) as [E11 E29].
    assert (m = 2) by (subst mp; destruct (Z.gtb_spec m 2); lia). subst m.
    unfold daysInMonth in Hd. change (2 =? 2) with true in Hd. cbv iota in Hd.
    destruct (isLeapYear y) eqn:HL; [|lia].
    subst y'. change (2 <=? 2) with true in yoe. cbv iota in yoe.
    unfold isLeapYear in HL. subst yoe.
    destruct (Z.eqb_spec (y mod 4) 0); destruct (Z.eqb_spec (y mod 100) 0);
      destruct (Z.eqb_spec (y mod 400) 0); cbn [andb orb negb] in HL;
      try discriminate HL;
      destruct (Z.eqb_spec ((y - 1 - (y - 1) / 400 * 400 + 1) mod 4) 0);
      destruct (Z.eqb_spec ((y - 1 - (y - 1) / 400 * 400 + 1) mod 100) 0);
      destruct (Z.eqb_spec (y - 1 - (y - 1) / 400 * 400 + 1) 400);
      cbn [andb orb negb]; try lia; exfalso; Z.div_mod_to_equations; lia. }
  destruct (yearOfEra_recovered yoe doy Hyoe Hleap) as (Hdoe & Eyoe).
  cbv zeta in Hdoe, Eyoe.
  unfold civilFromDays, daysFromCivil. cbv zeta.
  fold y'. fold mp. fold yoe. fold doy.
  set (doe := yoe * 365 + yoe / 4 - yoe / 100 + doy) in *.
  replace (y' / 400 * 146097 + doe - 719468 + 719468)
    with (doe + (y' / 400) * 146097) by lia.
  rewrite Z.div_add by lia. rewrite (Z.div_small doe) by lia.
  rewrite Z.add_0_l.
  replace (doe + y' / 400 * 146097 - y' / 400 * 146097) with doe by lia.
  rewrite Eyoe.
  replace (doe - (365 * yoe + yoe / 4 - yoe / 100)) with doy by (subst doe; lia).
  rewrite Emp, Ed.
  subst mp y' yoe.
  destruct (Z.gtb_spec m 2) as [G|G].
  - destruct (Z.leb_spec m 2); [lia|].
    destruct (Z.ltb_spec (m - 3) 10).
    + destruct (Z.leb_spec (m - 3 + 3) 2); [lia|]. f_equal. f_equal; lia.
    + lia.
  - destruct (Z.leb_spec m 2); [|lia].
    destruct (Z.ltb_spec (m + 9) 10); [lia|].
    destruct (Z.leb_spec (m + 9 - 9) 2); [|lia]. f_equal. f_equal; lia.
Qed.

Lemma localDay_localMidnight (tz offsetAt : Z -> Z) (d : Z) :
  midnightOnItsDay tz offsetAt d ->
  localDay offsetAt (localMidnight tz d) = d.
Proof.
  unfold midnightOnItsDay, localDay. intros H.
  set (t := localMidnight tz d) in *.
  assert (Et : t = d * msPerDay - tz d) by reflexivity.
  unfold msPerDay in *. symmetry.
  apply (Z.div_unique_pos _ _ d (offsetAt t - tz d)); lia.
Qed.

Lemma formatDate_on_its_day (tz offsetAt : Z -> Z) (y m d : Z) :
  validDate y m d ->
  midnightOnItsDay tz offsetAt (isoDate y m d) ->
  formatDate tz offsetAt (isoDate y m d)
  = padStart2 (pretty m) +:+ "/" +:+ padStart2 (pretty d) +:+ "/" +:+ pretty y.
Proof.
  intros Hv Hday. unfold formatDate. cbv zeta.
  rewrite (localDay_localMidnight tz offsetAt _ Hday).
  unfold isoDate. rewrite (civilFromDays_daysFromCivil y m d Hv). reflexivity.
Qed.

(** A month or a day of the month is written with exactly two digits, from
    which it is read back. *)
Lemma padStart2_two_digits (a : Z) :
  0 <= a <= 31 ->
  exists c1 c2,
    padStart2 (pretty a) = String c1 (String c2 EmptyString)
    /\ twoDigits c1 c2 = a.
Proof.
  intros H.
  assert (Hall : forallb paddedToTwoDigits (List.map Z.of_nat (seq 0 32)) = true)
    by (vm_compute; reflexivity).
  rewrite forallb_forall in Hall.
  assert (Hok : paddedToTwoDigits a = true).
  { apply Hall. rewrite in_map_iff. exists (Z.to_nat a).
    split; [lia|]. apply in_seq. lia. }
  unfold paddedToTwoDigits in Hok.
  destruct (padStart2 (pretty a)) as [|c1 [|c2 [|c3 rest]]]; try discriminate Hok.
  exists c1, c2. split; [reflexivity|]. now apply Z.eqb_eq.
Qed.

Lemma validDate_ranges (y m d : Z) :
  validDate y m d -> 0 <= m <= 31 /\ 0 <= d <= 31.
Proof.
  intros [Hm Hd]. pose proof (daysInMonth_bounds y m). lia.
Qed.

Lemma rendering_inj (y m d y2 m2 d2 : Z) :
  0 <= m <= 31 -> 0 <= d <= 31 -> 0 <= m2 <= 31 -> 0 <= d2 <= 31 ->
  padStart2 (pretty m2) +:+ "/" +:+ padStart2 (pretty d2) +:+ "/" +:+ pretty y2
  = padStart2 (pretty m) +:+ "/" +:+ padStart2 (pretty d) +:+ "/" +:+ pretty y ->
  (y2, m2, d2) = (y, m, d).
Proof.
  intros Hm Hd Hm2 Hd2.
  destruct (padStart2_two_digits m Hm) as (a1 & a2 & -> & <-).
  destruct (padStart2_two_digits d Hd) as (b1 & b2 & -> & <-).
  destruct (padStart2_two_digits m2 Hm2) as (e1 & e2 & -> & <-).
  destruct (padStart2_two_digits d2 Hd2) as (f1 & f2 & -> & <-).
  cbn [String.append]. intros E.
  injection E as -> -> -> -> Ey.
  cbn [String.append] in Ey. apply pretty_Z_inj in Ey. now subst.
Qed.

(** X10.  Where the instant read for midnight of a calendar date lies on
    that date in local time, [formatDate] turns YYYY-MM-DD into MM/DD/YYYY
    with the same year, month and day, month and day padded to two digits,
    and two such dates never share a rendering.  (The condition fails for a
    day the zone skipped, as 2011-12-30 in Pacific/Apia.) *)
Theorem formatDate_shows_the_same_day (tz offsetAt : Z -> Z) (y m d : Z) :
  validDate y m d ->
  midnightOnItsDay tz offsetAt (isoDate y m d) ->
  formatDate tz offsetAt (isoDate y m d)
  = padStart2 (pretty m) +:+ "/" +:+ padStart2 (pretty d) +:+ "/" +:+ pretty y
  /\ (forall y2 m2 d2,
        validDate y2 m2 d2 ->
        midnightOnItsDay tz offsetAt (isoDate y2 m2 d2) ->
        formatDate tz offsetAt (isoDate y2 m2 d2)
        = formatDate tz offsetAt (isoDate y m d) ->
        (y2, m2, d2) = (y, m, d)).
Proof.
  intros Hv Hday. split; [now apply formatDate_on_its_day|].
  intros y2 m2 d2 Hv2 Hday2.
  rewrite (formatDate_on_its_day tz offsetAt y m d Hv Hday).
  rewrite (formatDate_on_its_day tz offsetAt y2 m2 d2 Hv2 Hday2).
  destruct (validDate_ranges y m d Hv). destruct (validDate_ranges y2 m2 d2 Hv2).
  now apply rendering_inj.
Qed.

Lemma formatDate_shows_the_same_day_witness :
  validDate 2011 12 31
  /\ midnightOnItsDay apia apiaAt (isoDate 2011 12 31)
  /\ formatDate apia apiaAt (isoDate 2011 12 31)
     = padStart2 (pretty 12) +:+ "/" +:+ padStart2 (pretty 31) +:+ "/" +:+ pretty 2011.
Proof.
  assert (H : validDate 2011 12 31)
    by (unfold validDate; vm_compute; intuition discriminate).
  assert (Hday : midnightOnItsDay apia apiaAt (isoDate 2011 12 31))
    by (unfold midnightOnItsDay; vm_compute; split; [discriminate|reflexivity]).
  split; [exact H|]. split; [exact Hday|].
  exact (proj1 (formatDate_shows_the_same_day apia apiaAt 2011 12 31 H Hday)).
Defined.

(** ** HTML escaping *)

Example escapeHtml_example :
  escapeHtml "<b>Tom & Jerry's</b>"
  = "&lt;b&gt;Tom &amp; Jerry&#039;s&lt;/b&gt;".
Proof. vm_compute. reflexivity. Qed.

Lemma append_assoc (s t u : string) : (s +:+ t) +:+ u = s +:+ (t +:+ u).
Proof.
  induction s as [|a s IH]; [reflexivity|].
  change (String a ((s +:+ t) +:+ u) = String a (s +:+ (t +:+ u))).
  now rewrite IH.
Qed.

Lemma replaceAll_app (c : ascii) (r s t : string) :
  replaceAll c r (s +:+ t) = replaceAll c r s +:+ replaceAll c r t.
Proof.
  induction s as [|a s IH]; [reflexivity|]. simpl.
  destruct (Ascii.eqb a c); rewrite IH; [|reflexivity].
  symmetry. apply append_assoc.
Qed.

Lemma escapeHtml_cons (a : ascii) (s : string) :
  escapeHtml (String a s) = escapeChar a +:+ escapeHtml s.
Proof.
  unfold escapeHtml, escapeChar. cbn [replaceAll].
  destruct (Ascii.eqb_spec a "&") as [->|N1].
  { rewrite !replaceAll_app. reflexivity. }
  destruct (Ascii.eqb_spec a "<") as [->|N2].
  { cbn [replaceAll]. change (Ascii.eqb "<" "<") with true. cbv iota.
    rewrite !replaceAll_app. reflexivity. }
  cbn [replaceAll]. rewrite (proj2 (Ascii.eqb_neq a "<") N2).
  destruct (Ascii.eqb_spec a ">") as [->|N3].
  { cbn [replaceAll]. change (Ascii.eqb ">" ">") with true. cbv iota.
    rewrite !replaceAll_app. reflexivity. }
  cbn [replaceAll]. rewrite (proj2 (Ascii.eqb_neq a ">") N3).
  destruct (Ascii.eqb_spec a "034") as [->|N4].
  { cbn [replaceAll]. change (Ascii.eqb "034" "034") with true. cbv iota.
    rewrite !replaceAll_app. reflexivity. }
  cbn [replaceAll]. rewrite (proj2 (Ascii.eqb_neq a "034") N4).
  destruct (Ascii.eqb_spec a "'") as [->|N5].
  { cbn [replaceAll]. change (Ascii.eqb "'" "'") with true. cbv iota.
    reflexivity. }
  cbn [replaceAll]. rewrite (proj2 (Ascii.eqb_neq a "'") N5). reflexivity.
Qed.

Lemma escapeHtml_each (s : string) : escapeHtml s = escapeEach s.
Proof.
  induction s as [|a s IH]; [reflexivity|].
  rewrite escapeHtml_cons, IH. reflexivity.
Qed.

Lemma escapeEach_app (s t : string) :
  escapeEach (s +:+ t) = escapeEach s +:+ escapeEach t.
Proof.
  induction s as [|a s IH]; [reflexivity|]. simpl.
  now rewrite IH, append_assoc.
Qed.

Lemma occurs_app (c : ascii) (s t : string) :
  occurs c (s +:+ t) = occurs c s || occurs c t.
Proof.
  induction s as [|a s IH]; [reflexivity|]. simpl. now rewrite IH, orb_assoc.
Qed.

Lemma escapeChar_clean (a c : ascii) :
  c = "<"%char \/ c = ">"%char \/ c = "034"%char \/ c = "'"%char ->
  occurs c (escapeChar a) = false.
Proof.
  intros Hc. unfold escapeChar.
  destruct (Ascii.eqb_spec a "&");
    [destruct Hc as [->|[->|[->| ->]]]; reflexivity|].
  destruct (Ascii.eqb_spec a "<");
    [destruct Hc as [->|[->|[->| ->]]]; reflexivity|].
  destruct (Ascii.eqb_spec a ">");
    [destruct Hc as [->|[->|[->| ->]]]; reflexivity|].
  destruct (Ascii.eqb_spec a "034");
    [destruct Hc as [->|[->|[->| ->]]]; reflexivity|].
  destruct (Ascii.eqb_spec a "'");
    [destruct Hc as [->|[->|[->| ->]]]; reflexivity|].
  simpl. rewrite orb_false_r. apply Ascii.eqb_neq.
  destruct Hc as [->|[->|[->| ->]]]; assumption.
Qed.

Lemma escapeEach_clean (c : ascii) (s : string) :
  c = "<"%char \/ c = ">"%char \/ c = "034"%char \/ c = "'"%char ->
  occurs c (escapeEach s) = false.
Proof.
  intros Hc. induction s as [|a s IH]; [reflexivity|]. simpl.
  now rewrite occurs_app, IH, (escapeChar_clean a c Hc).
Qed.

Lemma escapeEach_inj (s t : string) : escapeEach s = escapeEach t -> s = t.
Proof.
  revert t. induction s as [|a s IH]; intros [|b t] H.
  - reflexivity.
  - exfalso. simpl in H. unfold escapeChar in H.
    repeat (destruct (Ascii.eqb b _); [discriminate H|]). discriminate H.
  - exfalso. simpl in H. unfold escapeChar in H.
    repeat (destruct (Ascii.eqb a _); [discriminate H|]). discriminate H.
  - simpl in H. unfold escapeChar in H.
    destruct (Ascii.eqb_spec a "&") as [->|A1]; [|
    destruct (Ascii.eqb_spec a "<") as [->|A2]; [|
    destruct (Ascii.eqb_spec a ">") as [->|A3]; [|
    destruct (Ascii.eqb_spec a "034") as [->|A4]; [|
    destruct (Ascii.eqb_spec a "'") as [->|A5]]]]];
    (destruct (Ascii.eqb_spec b "&") as [->|B1]; [|
     destruct (Ascii.eqb_spec b "<") as [->|B2]; [|
     destruct (Ascii.eqb_spec b ">") as [->|B3]; [|
     destruct (Ascii.eqb_spec b "034") as [->|B4]; [|
     destruct (Ascii.eqb_spec b "'") as [->|B5]]]]]);
    cbn in H; try discriminate H;
    try (injection H as H; f_equal; now apply IH);
    try (injection H as E H; congruence).
    injection H as E H. subst. f_equal. now apply IH.
Qed.

(** X11.  The five global replacements in a row act as one pass that
    replaces each character by its entity: the ampersands the later
    replacements write are never escaped again, and escaping a
    concatenation is concatenating the escapes. *)
Theorem escapeHtml_is_one_pass (s t : string) :
  escapeHtml s = escapeEach s
  /\ escapeHtml (s +:+ t) = escapeHtml s +:+ escapeHtml t.
Proof.
  split; [apply escapeHtml_each|].
  rewrite !escapeHtml_each. apply escapeEach_app.
Qed.

(** X12.  The escaped text holds none of the characters <, >, double
    quote and single quote; a text with none of the five special characters
    comes back unchanged. *)
Theorem escapeHtml_leaves_no_markup (s : string) :
  occurs "<" (escapeHtml s) = false
  /\ occurs ">" (escapeHtml s) = false
  /\ occurs "034" (escapeHtml s) = false
  /\ occurs "'" (escapeHtml s) = false
  /\ (occurs "&" s = false -> occurs "<" s = false -> occurs ">" s = false ->
      occurs "034" s = false -> occurs "'" s = false ->
      escapeHtml s = s).
Proof.
  rewrite escapeHtml_each.
  repeat (split; [apply escapeEach_clean; tauto|]).
  induction s as [|a s IH]; [reflexivity|]. simpl.
  intros H1 H2 H3 H4 H5.
  apply orb_false_elim in H1 as [E1 H1]. apply orb_false_elim in H2 as [E2 H2].
  apply orb_false_elim in H3 as [E3 H3]. apply orb_false_elim in H4 as [E4 H4].
  apply orb_false_elim in H5 as [E5 H5].
  unfold escapeChar. rewrite E1, E2, E3, E4, E5.
  simpl. f_equal. now apply IH.
Qed.

Lemma escapeHtml_leaves_no_markup_witness :
  occurs "&" "112 Bear Ln" = false
  /\ escapeHtml "112 Bear Ln" = "112 Bear Ln".
Proof.
  split; [reflexivity|].
  exact (proj2 (proj2 (proj2 (proj2 (escapeHtml_leaves_no_markup "112 Bear Ln"))))
           eq_refl eq_refl eq_refl eq_refl eq_refl).
Defined.

(** X13.  Escaping loses nothing: two texts with the same escaped form are
    the same text. *)
Theorem escapeHtml_injective (s t : string) :
  escapeHtml s = escapeHtml t -> s = t.
Proof. rewrite !escapeHtml_each. apply escapeEach_inj. Qed.

Lemma escapeHtml_injective_witness :
  escapeHtml "a<b" = escapeHtml (String "a" (String "<" (String "b" EmptyString)))
  /\ "a<b" = String "a" (String "<" (String "b" EmptyString)).
Proof.
  split; [reflexivity|].
  exact (escapeHtml_injective "a<b"
           (String "a" (String "<" (String "b" EmptyString))) eq_refl).
Defined.

(** ** Colours of users *)

Example pickColorForUser_ab : pickColorForUser "ab" = Some "#db2777".
Proof. vm_compute. reflexivity. Qed.

Example pickColorForUser_empty : pickColorForUser "" = Some "#064789".
Proof. vm_compute. reflexivity. Qed.

Example hash_leaves_32_bits :
  hashOf "abcdefgh" = -3035293564
  /\ pickColorForUser "abcdefgh" = Some "#047857".
Proof. vm_compute. split; reflexivity. Qed.

Lemma toInt32_range (x : Z) : -2147483648 <= toInt32 x < 2147483648.
Proof. unfold toInt32. Z.div_mod_to_equations. lia. Qed.

Lemma charCode_range (a : ascii) : 0 <= charCode a <= 255.
Proof.
  unfold charCode. pose proof (nat_ascii_bounded a). lia.
Qed.

Lemma hashFrom_bound (userId : string) (hash : Z) :
  Z.abs (hashFrom hash userId)
  <= Z.abs hash + Z.of_nat (String.length userId) * 2147483903.
Proof.
  revert hash. induction userId as [|a rest IH]; intros hash.
  - simpl. lia.
  - cbn [hashFrom String.length]. etransitivity; [apply IH|].
    pose proof (charCode_range a). unfold shiftLeft5.
    pose proof (toInt32_range (toInt32 hash * 32)). lia.
Qed.

(** X14.  [pickColorForUser] always answers with one of the thirty palette
    colours, never [undefined], whatever the id; and the hash stays within
    2147483903 times the length of the id, an exact number for any id
    shorter than four million characters. *)
Theorem pickColorForUser_in_palette (userId : string) :
  (exists color,
     pickColorForUser userId = Some color /\ In color USER_COLORS)
  /\ Z.abs (hashOf userId) <= Z.of_nat (String.length userId) * 2147483903.
Proof.
  split.
  - unfold pickColorForUser.
    set (n := Z.to_nat (Z.rem (Z.abs (hashOf userId))
                          (Z.of_nat (length USER_COLORS)))).
    assert (Hn : (n < length USER_COLORS)%nat).
    { subst n. change (Z.of_nat (length USER_COLORS)) with 30.
      change (length USER_COLORS) with 30%nat.
      pose proof (Z.rem_bound_pos (Z.abs (hashOf userId)) 30). lia. }
    destruct (lookup_lt_is_Some_2 USER_COLORS n Hn) as [color Hc].
    exists color. split; [exact Hc|].
    apply list_elem_of_In. eapply list_elem_of_lookup_2. exact Hc.
  - pose proof (hashFrom_bound userId 0). unfold hashOf. lia.
Qed.

(** ** Signing in *)

Lemma prefix_char (c : ascii) (s : string) :
  String.prefix (String c EmptyString) s
  = match s with
    | EmptyString => false
    | String a _ => Ascii.eqb a c
    end.
Proof.
  destruct s as [|a s]; [reflexivity|]. simpl.
  destruct (ascii_dec c a) as [->|N].
  - rewrite Ascii.eqb_refl. now destruct s.
  - symmetry. apply Ascii.eqb_neq. congruence.
Qed.

Lemma includes_char (c : ascii) (s : string) :
  includes (String c EmptyString) s = occurs c s.
Proof.
  induction s as [|a s IH]; [reflexivity|].
  cbn [includes occurs]. rewrite prefix_char, IH. reflexivity.
Qed.

Ltac link_refused :=
  cbn [toast requested emailField];
  split; [intros a H; discriminate H|];
  split; [split; [intros [m H]; discriminate H|intros [H _]; congruence]|];
  split; [intros [m H]; discriminate H|intros _; reflexivity].

(** X15.  [sendLink] asks for a sign-in link only for the trimmed,
    lower-cased address, and only when that is not empty and holds both an
    at sign and a dot; the input is cleared exactly when the link was sent,
    and kept as typed after every refusal or failure. *)
Theorem sendLink_asks_only_for_plausible_addresses
    (trim toLowerCase : string -> string) (otpFault : option string)
    (email : string) :
  let out := sendLink trim toLowerCase otpFault email in
  (forall address, requested out = Some address ->
     address = toLowerCase (trim email) /\ address <> ""
     /\ occurs "@" address = true /\ occurs "." address = true)
  /\ ((exists message, toast out = ToastSuccess message)
      <-> requested out <> None /\ otpFault = None)
  /\ ((exists message, toast out = ToastSuccess message) -> emailField out = "")
  /\ ((exists message, toast out = ToastError message) -> emailField out = email).
Proof.
  cbv zeta. unfold sendLink.
  pose proof (includes_char "@" (toLowerCase (trim email))) as Cat.
  pose proof (includes_char "." (toLowerCase (trim email))) as Cdot.
  destruct (String.eqb_spec (toLowerCase (trim email)) "") as [E|N];
    [link_refused|].
  destruct (includes "@" (toLowerCase (trim email)));
    destruct (includes "." (toLowerCase (trim email))); cbn [negb orb];
    [|link_refused..].
  destruct otpFault as [message|]; cbn [toast requested emailField].
  - split; [intros a H; injection H as <-; auto|].
    split; [split; [intros [m H]; discriminate H|intros [_ H]; discriminate H]|].
    split; [intros [m H]; discriminate H|intros _; reflexivity].
  - split; [intros a H; injection H as <-; auto|].
    split; [split; [intros _; split; [discriminate|reflexivity]
                   |intros _; eexists; reflexivity]|].
    split; [intros _; reflexivity|intros [m H]; discriminate H].
Qed.

Lemma sendLink_asks_only_for_plausible_addresses_witness :
  requested (sendLink (fun s => s) (fun s => s) None "pat@example.com")
  = Some "pat@example.com"
  /\ occurs "@" "pat@example.com" = true.
Proof.
  split; [reflexivity|].
  exact (proj1 (proj2 (proj2
           (proj1 (sendLink_asks_only_for_plausible_addresses
                     (fun s => s) (fun s => s) None "pat@example.com")
              "pat@example.com" eq_refl)))).
Defined.

(** ** Cancelling and deleting *)

Lemma filter_implied {A : Type} (f g : A -> bool) (l : list A) :
  (forall x, f x = true -> g x = true) ->
  List.filter f (List.filter g l) = List.filter f l.
Proof.
  intros H. induction l as [|x l IH]; [reflexivity|]. simpl.
  destruct (g x) eqn:Eg; simpl.
  - now rewrite IH.
  - destruct (f x) eqn:Ef; [rewrite (H x Ef) in Eg; discriminate|exact IH].
Qed.

Lemma GET_active_only
    (tz : Z -> Z) (now : Clock) (hs : list House) (bs : list Booking) :
  GET tz now (store hs bs)
  = GET tz now (store hs (List.filter (fun b => is_active (status b)) bs)).
Proof.
  rewrite !GET_store. cbv zeta. unfold bookingRows. cbv zeta.
  rewrite filter_implied; [reflexivity|].
  intros b Hb. unfold touching in Hb.
  apply andb_prop in Hb as [Hb _]. now apply andb_prop in Hb as [Hb _].
Qed.

Lemma markCancelled_id (at_ bookingId : Z) (row : BookingRow) :
  row_id (markCancelled at_ bookingId row) = row_id row.
Proof. unfold markCancelled. now destruct (row_id row =? bookingId). Qed.

Lemma filter_markCancelled (at_ bookingId : Z) (table : list BookingRow) :
  List.filter (fun row => row_id row =? bookingId)
    (List.map (markCancelled at_ bookingId) table)
  = List.map (markCancelled at_ bookingId)
      (List.filter (fun row => row_id row =? bookingId) table).
Proof.
  induction table as [|row table IH]; [reflexivity|]. simpl.
  rewrite markCancelled_id. destruct (row_id row =? bookingId); simpl;
    now rewrite IH.
Qed.

Lemma cancelBooking_success_inv
    (severalRows : string) (user : option User) (at_ : Z)
    (fetchFault updateFault : option string) (table table' : list BookingRow)
    (bookingId : Z) (message : string) :
  cancelBooking severalRows user at_ fetchFault updateFault table bookingId
  = (CancelToast (ToastSuccess message), table') ->
  exists u row,
    user = Some u
    /\ List.filter (fun r => row_id r =? bookingId) table = [row]
    /\ row_created_by row = user_id u
    /\ row_status row = active
    /\ fetchFault = None /\ updateFault = None
    /\ table' = List.map (markCancelled at_ bookingId) table.
Proof.
  unfold cancelBooking, maybeSingle.
  destruct user as [u|]; [|discriminate].
  destruct fetchFault; [discriminate|].
  destruct (List.filter _ table) as [|row [|row2 rest]]; try discriminate.
  destruct (String.eqb_spec (row_created_by row) (user_id u)) as [Eo|No];
    cbn [negb]; [|discriminate].
  destruct (row_status row) eqn:Es; cbn [is_active negb]; [|discriminate].
  destruct updateFault; [discriminate|].
  intros H. injection H as _ <-. exists u, row. repeat split; assumption.
Qed.

(** X16.  A booking is cancelled only by the signed-in user who created
    it, only while it is active, and only when the id names exactly one row;
    then that row, and no other, becomes cancelled, stamped with the time of
    the call.  In every other case the table is left as it was and the user
    is told why or sent to the login page. *)
Theorem cancelBooking_only_by_its_creator
    (severalRows : string) (user : option User) (at_ : Z)
    (fetchFault updateFault : option string) (table : list BookingRow)
    (bookingId : Z) :
  let run :=
    cancelBooking severalRows user at_ fetchFault updateFault table bookingId in
  (snd run = table
   /\ (fst run = CancelToLogin \/ exists why, fst run = CancelToast (ToastError why)))
  \/ (fst run = CancelToast (ToastSuccess "Booking cancelled.")
      /\ exists u row,
           user = Some u
           /\ List.filter (fun r => row_id r =? bookingId) table = [row]
           /\ row_created_by row = user_id u
           /\ row_status row = active
           /\ length (snd run) = length table
           /\ (forall i r, table !! i = Some r ->
                 snd run !! i
                 = Some (if row_id r =? bookingId
                         then {| row_id := row_id r;
                                 row_house_id := row_house_id r;
                                 row_created_by := row_created_by r;
                                 row_guest_count := row_guest_count r;
                                 row_start_date := row_start_date r;
                                 row_end_date := row_end_date r;
                                 row_status := cancelled;
                                 row_note := row_note r;
                                 row_cancelled_at := Some at_ |}
                         else r))).
Proof.
  cbv zeta.
  destruct (cancelBooking severalRows user at_ fetchFault updateFault table
              bookingId) as [out table'] eqn:Hrun.
  cbn [fst snd].
  destruct out as [|[why|message]].
  - left. unfold cancelBooking, maybeSingle in Hrun.
    destruct user; [|injection Hrun as <-; auto].
    destruct fetchFault; [discriminate|].
    destruct (List.filter _ table) as [|row [|row2 rest]]; try discriminate.
    destruct (negb _); [discriminate|]. destruct (negb _); [discriminate|].
    destruct updateFault; discriminate.
  - left. split; [|right; now exists why].
    unfold cancelBooking, maybeSingle in Hrun.
    destruct user; [|discriminate].
    destruct fetchFault; [now injection Hrun as _ <-|].
    destruct (List.filter _ table) as [|row [|row2 rest]];
      try (now injection Hrun as _ <-).
    destruct (negb _); [now injection Hrun as _ <-|].
    destruct (negb _); [now injection Hrun as _ <-|].
    destruct updateFault; [now injection Hrun as _ <-|discriminate].
  - right.
    assert (Hm : message = "Booking cancelled.").
    { unfold cancelBooking, maybeSingle in Hrun.
      destruct user; [|discriminate].
      destruct fetchFault; [discriminate|].
      destruct (List.filter _ table) as [|row [|row2 rest]]; try discriminate.
      destruct (negb _); [discriminate|]. destruct (negb _); [discriminate|].
      destruct updateFault; [discriminate|]. now injection Hrun as <- _. }
    subst message. split; [reflexivity|].
    apply cancelBooking_success_inv in Hrun
      as (u & row & Hu & Hone & Hown & Hact & _ & _ & ->).
    exists u, row. repeat (split; [assumption|]).
    split; [apply length_map|].
    intros i r Hi. rewrite list_lookup_fmap, Hi. reflexivity.
Qed.

Lemma cancelBooking_only_by_its_creator_witness :
  cancelBooking "several rows" (Some someUser) 1769000000000 None None
    [aliceRow; bobRow] 42
  = (CancelToast (ToastError "You can only cancel your own booking."),
     [aliceRow; bobRow]).
Proof.
  destruct (cancelBooking_only_by_its_creator "several rows" (Some someUser)
              1769000000000 None None [aliceRow; bobRow] 42)
    as [[Hsame _]|[Hok _]].
  - reflexivity.
  - discriminate Hok.
Defined.

(** X17.  Cancelling twice does no more than cancelling once: after a
    successful cancellation a second call by the same user is refused with
    "This booking is already cancelled." and leaves the table as the first
    call left it. *)
Theorem cancelBooking_twice
    (severalRows : string) (user : option User) (at_ at2 : Z)
    (updateFault2 : option string) (table table' : list BookingRow)
    (bookingId : Z) (message : string) :
  cancelBooking severalRows user at_ None None table bookingId
  = (CancelToast (ToastSuccess message), table') ->
  cancelBooking severalRows user at2 None updateFault2 table' bookingId
  = (CancelToast (ToastError "This booking is already cancelled."), table').
Proof.
  intros H. apply cancelBooking_success_inv in H
    as (u & row & -> & Hone & Hown & Hact & _ & _ & ->).
  unfold cancelBooking, maybeSingle.
  rewrite filter_markCancelled, Hone. cbn [List.map].
  assert (Hid : (row_id row =? bookingId) = true).
  { assert (Hin : In row (List.filter (fun r => row_id r =? bookingId) table))
      by (rewrite Hone; now left).
    now apply filter_In in Hin as [_ Hin]. }
  assert (Hc : row_created_by (markCancelled at_ bookingId row)
               = row_created_by row)
    by (unfold markCancelled; now destruct (row_id row =? bookingId)).
  assert (Hst : row_status (markCancelled at_ bookingId row) = cancelled)
    by (unfold markCancelled; now rewrite Hid).
  rewrite Hc, Hst, Hown, String.eqb_refl. reflexivity.
Qed.

Lemma cancelBooking_twice_witness :
  cancelBooking "several rows" (Some someUser) 1769000000000 None None
    [aliceRow; bobRow] 41
  = (CancelToast (ToastSuccess "Booking cancelled."),
     [markCancelled 1769000000000 41 aliceRow; bobRow])
  /\ cancelBooking "several rows" (Some someUser) 1769000000001 None None
       [markCancelled 1769000000000 41 aliceRow; bobRow] 41
     = (CancelToast (ToastError "This booking is already cancelled."),
        [markCancelled 1769000000000 41 aliceRow; bobRow]).
Proof.
  assert (H : cancelBooking "several rows" (Some someUser) 1769000000000
                None None [aliceRow; bobRow] 41
              = (CancelToast (ToastSuccess "Booking cancelled."),
                 [markCancelled 1769000000000 41 aliceRow; bobRow]))
    by reflexivity.
  split; [exact H|].
  exact (cancelBooking_twice "several rows" (Some someUser) 1769000000000
           1769000000001 None [aliceRow; bobRow] _ 41 _ H).
Defined.

Lemma active_after_cancel (at_ bookingId : Z) (table : list BookingRow) :
  List.filter (fun b => is_active (status b))
    (List.map usageColumns (List.map (markCancelled at_ bookingId) table))
  = List.filter (fun b => is_active (status b))
      (List.map usageColumns
         (List.filter (fun r => negb (row_id r =? bookingId)) table)).
Proof.
  induction table as [|r table IH]; [reflexivity|].
  cbn [List.map List.filter].
  destruct (row_id r =? bookingId) eqn:E; cbn [negb].
  - assert (Hst : status (usageColumns (markCancelled at_ bookingId r)) = cancelled)
      by (unfold markCancelled; now rewrite E).
    rewrite Hst. cbn [is_active]. exact IH.
  - assert (Hr : markCancelled at_ bookingId r = r)
      by (unfold markCancelled; now rewrite E).
    rewrite Hr. cbn [List.map List.filter].
    destruct (is_active (status (usageColumns r))); [now rewrite IH|exact IH].
Qed.

(** X18.  Once a booking is cancelled the usage report no longer counts
    it: the response computed from the table after the cancellation is the
    response computed from the table without that booking. *)
Theorem cancelled_booking_leaves_the_report
    (tz : Z -> Z) (now : Clock) (hs : list House)
    (severalRows : string) (user : option User) (at_ : Z)
    (fetchFault updateFault : option string) (table table' : list BookingRow)
    (bookingId : Z) (message : string) :
  cancelBooking severalRows user at_ fetchFault updateFault table bookingId
  = (CancelToast (ToastSuccess message), table') ->
  GET tz now (store hs (List.map usageColumns table'))
  = GET tz now
      (store hs (List.map usageColumns
                   (List.filter (fun r => negb (row_id r =? bookingId)) table))).
Proof.
  intros H. apply cancelBooking_success_inv in H
    as (_ & _ & _ & _ & _ & _ & _ & _ & ->).
  rewrite GET_active_only. symmetry. rewrite GET_active_only. symmetry.
  now rewrite active_after_cancel.
Qed.

Lemma cancelled_booking_leaves_the_report_witness :
  cancelBooking "several rows" (Some someUser) 1769000000000 None None
    [aliceRow; bobRow] 41
  = (CancelToast (ToastSuccess "Booking cancelled."),
     [markCancelled 1769000000000 41 aliceRow; bobRow])
  /\ GET seasonal february2026
       (store scenarioHouses
          (List.map usageColumns [markCancelled 1769000000000 41 aliceRow; bobRow]))
     = GET seasonal february2026
         (store scenarioHouses
            (List.map usageColumns
               (List.filter (fun r => negb (row_id r =? 41)) [aliceRow; bobRow]))).
Proof.
  assert (H : cancelBooking "several rows" (Some someUser) 1769000000000
                None None [aliceRow; bobRow] 41
              = (CancelToast (ToastSuccess "Booking cancelled."),
                 [markCancelled 1769000000000 41 aliceRow; bobRow]))
    by reflexivity.
  split; [exact H|].
  exact (cancelled_booking_leaves_the_report seasonal february2026
           scenarioHouses "several rows" (Some someUser) 1769000000000
           None None [aliceRow; bobRow] _ 41 _ H).
Defined.

Lemma filter_all {A : Type} (f : A -> bool) (l : list A) :
  (forall x, In x l -> f x = true) -> List.filter f l = l.
Proof.
  induction l as [|x l IH]; intros H; [reflexivity|]. simpl.
  rewrite (H x (or_introl eq_refl)). f_equal. apply IH.
  intros y Hy. apply H. now right.
Qed.

Lemma adminDelete_ok_inv (severalRows : string) (be : Backend) (body : DeleteBody)
    (table' : list BookingRow) :
  adminDeletePOST severalRows be body = (ApiOk, table') ->
  exists token bid userId prof,
    body = JsonObject (Some token) (Some bid)
    /\ token <> "" /\ bid <> 0
    /\ sessions be !! token = Some userId
    /\ userId <> ""
    /\ List.filter (fun p => String.eqb (profile_id p) userId) (profiles be)
       = [prof]
    /\ is_admin prof = Some true
    /\ profilesFault be = None /\ deleteFault be = None
    /\ table' = List.filter (fun row => negb (row_id row =? bid))
                  (bookingRowsTable be).
Proof.
  unfold adminDeletePOST, maybeSingle. cbv zeta.
  destruct body as [m| |[token|] [bid|]]; try discriminate.
  destruct (String.eqb_spec token "") as [|Nt]; cbn [orb]; [discriminate|].
  destruct (Z.eqb_spec bid 0) as [|Nb]; [discriminate|].
  destruct (sessions be !! token) as [userId|] eqn:Hs; [|discriminate].
  destruct (String.eqb_spec userId "") as [|Nu]; [discriminate|].
  destruct (profilesFault be) eqn:Hpf; [discriminate|].
  destruct (List.filter _ (profiles be)) as [|prof [|p2 rest]] eqn:Hp;
    try discriminate.
  destruct (is_admin prof) as [[|]|] eqn:Ha; try discriminate.
  destruct (deleteFault be) eqn:Hdf; [discriminate|].
  intros H. injection H as <-.
  exists token, bid, userId, prof. repeat split; assumption.
Qed.

(** X19.  A booking is deleted only for a caller whose access token
    resolves to a user with exactly one profile marked admin; every other
    request leaves the table untouched and is answered 400, 401, 403 or
    500. *)
Theorem adminDelete_only_for_admins
    (severalRows : string) (be : Backend) (body : DeleteBody) :
  let run := adminDeletePOST severalRows be body in
  (fst run = ApiOk ->
   exists token bid userId prof,
     body = JsonObject (Some token) (Some bid)
     /\ sessions be !! token = Some userId
     /\ List.filter (fun p => String.eqb (profile_id p) userId) (profiles be)
        = [prof]
     /\ is_admin prof = Some true
     /\ snd run = List.filter (fun row => negb (row_id row =? bid))
                    (bookingRowsTable be))
  /\ (fst run <> ApiOk ->
      snd run = bookingRowsTable be
      /\ exists code message,
           fst run = ApiError code message
           /\ (code = 400 \/ code = 401 \/ code = 403 \/ code = 500)).
Proof.
  cbv zeta. split.
  - intros Hok.
    destruct (adminDeletePOST severalRows be body) as [res table'] eqn:Hrun.
    cbn [fst snd] in *. subst res.
    apply adminDelete_ok_inv in Hrun
      as (token & bid & userId & prof & -> & _ & _ & Hs & _ & Hp & Ha & _ & _ & ->).
    now exists token, bid, userId, prof.
  - unfold adminDeletePOST, maybeSingle. cbv zeta.
    destruct body as [m| |[token|] [bid|]]; cbn [fst snd];
      try (intros _; split; [reflexivity|]; eexists _, _; split;
           [reflexivity|tauto]).
    destruct (String.eqb token "" || (bid =? 0)); cbn [fst snd];
      [intros _; split; [reflexivity|]; eexists _, _; split; [reflexivity|tauto]|].
    destruct (sessions be !! token) as [userId|]; cbn [fst snd];
      [|intros _; split; [reflexivity|]; eexists _, _; split; [reflexivity|tauto]].
    destruct (String.eqb userId ""); cbn [fst snd];
      [intros _; split; [reflexivity|]; eexists _, _; split; [reflexivity|tauto]|].
    destruct (profilesFault be); cbn [fst snd];
      [intros _; split; [reflexivity|]; eexists _, _; split; [reflexivity|tauto]|].
    destruct (List.filter _ (profiles be)) as [|prof [|p2 rest]]; cbn [fst snd];
      try (intros _; split; [reflexivity|]; eexists _, _; split;
           [reflexivity|tauto]).
    destruct (is_admin prof) as [[|]|]; cbn [fst snd];
      try (intros _; split; [reflexivity|]; eexists _, _; split;
           [reflexivity|tauto]).
    destruct (deleteFault be); cbn [fst snd];
      [intros _; split; [reflexivity|]; eexists _, _; split; [reflexivity|tauto]|].
    intros H. now contradiction H.
Qed.

Lemma adminDelete_only_for_admins_witness :
  fst (adminDeletePOST "several rows" backend
         (JsonObject (Some "tok-guest") (Some 42)))
  <> ApiOk
  /\ snd (adminDeletePOST "several rows" backend
            (JsonObject (Some "tok-guest") (Some 42)))
     = bookingRowsTable backend.
Proof.
  assert (H : fst (adminDeletePOST "several rows" backend
                     (JsonObject (Some "tok-guest") (Some 42))) <> ApiOk)
    by (vm_compute; discriminate).
  split; [exact H|].
  exact (proj1 (proj2 (adminDelete_only_for_admins "several rows" backend
                         (JsonObject (Some "tok-guest") (Some 42))) H)).
Defined.

(** X20.  A successful deletion removes every row with the given id and
    nothing else, whoever created the booking and whatever its status; an
    id that names no row is accepted and changes nothing; and repeating the
    request is accepted again and changes nothing more. *)
Theorem adminDelete_removes_exactly_that_booking
    (severalRows : string) (be : Backend) (token : string) (bid : Z)
    (table' : list BookingRow) :
  adminDeletePOST severalRows be (JsonObject (Some token) (Some bid))
  = (ApiOk, table') ->
  (forall row, In row table' <-> In row (bookingRowsTable be) /\ row_id row <> bid)
  /\ ((forall row, In row (bookingRowsTable be) -> row_id row <> bid) ->
      table' = bookingRowsTable be)
  /\ adminDeletePOST severalRows (withRows be table')
       (JsonObject (Some token) (Some bid))
     = (ApiOk, table').
Proof.
  intros Hrun.
  pose proof Hrun as Hinv. apply adminDelete_ok_inv in Hinv
    as (token0 & bid0 & userId & prof & Hbody & Nt & Nb & Hs & Nu & Hp & Ha
        & Hpf & Hdf & ->).
  injection Hbody as <- <-.
  split; [|split].
  - intros row. rewrite filter_In. split.
    + intros [Hin Hne]. split; [exact Hin|].
      apply negb_true_iff, Z.eqb_neq in Hne. exact Hne.
    + intros [Hin Hne]. split; [exact Hin|].
      now apply negb_true_iff, Z.eqb_neq.
  - intros Hnone. apply filter_all. intros row Hin.
    now apply negb_true_iff, Z.eqb_neq, Hnone.
  - unfold adminDeletePOST, maybeSingle, withRows. cbv zeta.
    cbn [sessions profiles bookingRowsTable profilesFault deleteFault].
    rewrite (proj2 (String.eqb_neq token "") Nt).
    rewrite (proj2 (Z.eqb_neq bid 0) Nb). cbn [orb].
    rewrite Hs, (proj2 (String.eqb_neq userId "") Nu), Hpf, Hp, Ha, Hdf.
    f_equal. apply filter_implied. auto.
Qed.

Lemma adminDelete_removes_exactly_that_booking_witness :
  adminDeletePOST "several rows" backend (JsonObject (Some "tok-admin") (Some 41))
  = (ApiOk, [bobRow])
  /\ adminDeletePOST "several rows" (withRows backend [bobRow])
       (JsonObject (Some "tok-admin") (Some 41))
     = (ApiOk, [bobRow]).
Proof.
  assert (H : adminDeletePOST "several rows" backend
                (JsonObject (Some "tok-admin") (Some 41))
              = (ApiOk, [bobRow]))
    by (vm_compute; reflexivity).
  split; [exact H|].
  exact (proj2 (proj2 (adminDelete_removes_exactly_that_booking "several rows"
                         backend "tok-admin" 41 [bobRow] H))).
Defined.
